(** * gazelle: rule generation, label resolution and build-file merging

    A shallow embedding of the Go package [rules] of gazelle (the build-file
    generator of rules_go) together with the properties its design document
    states about it.

    - [GoStrings]: the few functions of Go's [strings] and [sort] packages
      the generator calls.
    - [Rules]: the declarations shared by both revisions of generator.go
      ([checkInternalVisibility], [isRelative], [generateLoad],
      [dependencies], [NewGenerator]) and resolve_vendored.go.
    - [GeneratorA], [GeneratorB]: the two revisions of the rule assembler
      (with and without the [bfPath] argument).
    - [BuildFile], [GenerateA], [GenerateB]: the generated file and the
      entry points [Generate] and [GenerateVendor].
    - [Merger]: the merge engine. *)

From Stdlib Require Import String Ascii List ZArith Bool Lia.
From Stdlib Require Import Sorting.Sorted Sorting.Permutation.
From stdpp Require Import base strings gmap.
Import ListNotations.
Open Scope string_scope.

(** ** Go's [strings] and [sort] helpers *)

Module GoStrings.

(** [strings.HasPrefix(s, prefix)]. *)
Definition HasPrefix (s prefix : string) : bool := String.prefix prefix s.

(** [s[n:]] for [n <= len(s)]. *)
Fixpoint sliceFrom (n : nat) (s : string) : string :=
  match n, s with
  | O, _ => s
  | S n', String _ s' => sliceFrom n' s'
  | S _, EmptyString => EmptyString
  end.

(** [s[:n]] for [n <= len(s)]. *)
Fixpoint sliceTo (n : nat) (s : string) : string :=
  match n, s with
  | O, _ => EmptyString
  | S n', String c s' => String c (sliceTo n' s')
  | S _, EmptyString => EmptyString
  end.

(** [strings.TrimPrefix(s, prefix)]: [s] without the leading [prefix], or
    [s] itself when it does not start with [prefix]. *)
Definition TrimPrefix (s prefix : string) : string :=
  if HasPrefix s prefix then sliceFrom (String.length prefix) s else s.

(** [strings.LastIndex(s, substr)]: the index of the last occurrence of
    [substr] in [s], or [-1].  [lastIndexFrom i s] scans the suffix [s]
    that starts at index [i] of the whole string. *)
Fixpoint lastIndexFrom (substr : string) (i : Z) (s : string) : Z :=
  match s with
  | EmptyString => if String.prefix substr EmptyString then i else (-1)%Z
  | String _ s' =>
      let later := lastIndexFrom substr (i + 1) s' in
      if (0 <=? later)%Z then later
      else if String.prefix substr s then i else (-1)%Z
  end.

Definition LastIndex (s substr : string) : Z := lastIndexFrom substr 0 s.

(** [sort.Sort] on a [sort.StringSlice]: ascending, byte-wise order.  Equal
    strings are identical, so every sorting algorithm returns this list. *)
Fixpoint insertString (x : string) (l : list string) : list string :=
  match l with
  | [] => [x]
  | y :: l' => if String.leb x y then x :: l else y :: insertString x l'
  end.

Definition sort_Sort (l : list string) : list string :=
  fold_right insertString [] l.

End GoStrings.

Import GoStrings.

(** ** Declarations shared by both revisions of the generator *)

Module Rules.

Definition goRulesBzl : string := "@io_bazel_rules_go//go:def.bzl".
Definition defaultLibName : string := "go_default_library".
Definition defaultTestName : string := "go_default_test".
Definition defaultXTestName : string := "go_default_xtest".
Definition defaultProtosName : string := "go_default_library_protos".
Definition defaultCgoLibName : string := "cgo_default_library".

(** Go's [(T, error)] results; an error is carried as its message. *)
Inductive result (A : Type) : Type :=
| Ok (a : A)
| Err (msg : string).
Arguments Ok {A} a.
Arguments Err {A} msg.

(** Modelled from the spec: the [label] struct and its [String] method are
    declared outside the available sources; resolve_vendored.go shows the
    fields [pkg] and [name].  The three text forms are [@repo//pkg:name],
    [//pkg:name] for the local repository and [:name] inside a package. *)
Record label : Type := mkLabel
  { repo : string; pkg : string; name : string; relative : bool }.

Definition label_String (l : label) : string :=
  if relative l then ":" ++ name l
  else if String.eqb (repo l) "" then "//" ++ pkg l ++ ":" ++ name l
  else "@" ++ repo l ++ "//" ++ pkg l ++ ":" ++ name l.

(** The [labelResolver] interface: [resolve(importpath, dir)]. *)
Definition labelResolver : Type := string -> string -> result label.

(** resolve_vendored.go: [vendoredResolver.resolve].  The fields the
    composite literal leaves out hold Go's zero values. *)
Definition vendoredResolver_resolve : labelResolver :=
  fun importpath dir =>
    Ok {| repo := ""; pkg := "vendor/" ++ importpath;
          name := defaultLibName; relative := false |}.

(** [isRelative] *)
Definition isRelative (importpath : string) : bool :=
  HasPrefix importpath "./" || HasPrefix importpath "..".

(** [checkInternalVisibility] *)
Definition checkInternalVisibility (rel visibility : string) : string :=
  let i := LastIndex rel "/internal/" in
  if (0 <=? i)%Z then "//" ++ sliceTo (Z.to_nat i) rel ++ ":__subpackages__"
  else if HasPrefix rel "internal/" then "//:__subpackages__"
  else visibility.

(** *** The package model and rule values *)

(** Modelled from the spec: [packages.PlatformStrings] is declared outside
    the available sources.  A platform-partitioned string set is a base list
    plus per-platform lists; [Map] applies a fallible function to every
    string, collecting results and errors; [Clean] removes duplicates and
    drops from each platform list what the base list already holds. *)
Record PlatformStrings : Type := mkPlatformStrings
  { Generic : list string;
    Platform : list (string * list string) }.

Definition allStrings (ps : PlatformStrings) : list string :=
  (Generic ps ++ concat (map snd (Platform ps)))%list.

Definition PlatformStrings_IsEmpty (ps : PlatformStrings) : bool :=
  match allStrings ps with [] => true | _ :: _ => false end.

Fixpoint mapSlice (f : string -> result string) (ss : list string)
  : list string * list string :=
  match ss with
  | [] => ([], [])
  | s :: ss' =>
      let (rs, errors) := mapSlice f ss' in
      match f s with
      | Ok r0 => (r0 :: rs, errors)
      | Err err => (rs, err :: errors)
      end
  end.

Fixpoint mapPlatforms (f : string -> result string)
    (ps : list (string * list string))
  : list (string * list string) * list string :=
  match ps with
  | [] => ([], [])
  | (platform, ss) :: ps' =>
      let (rs, errors) := mapSlice f ss in
      let (rest, errors') := mapPlatforms f ps' in
      ((platform, rs) :: rest, (errors ++ errors')%list)
  end.

Definition PlatformStrings_Map (f : string -> result string)
    (ps : PlatformStrings) : PlatformStrings * list string :=
  let (generic, errors) := mapSlice f (Generic ps) in
  let (platform, errors') := mapPlatforms f (Platform ps) in
  ({| Generic := generic; Platform := platform |}, (errors ++ errors')%list).

Definition hasString (s : string) (l : list string) : bool :=
  existsb (String.eqb s) l.

Fixpoint uniq (l : list string) : list string :=
  match l with
  | [] => []
  | x :: l' => x :: List.filter (fun y => negb (String.eqb x y)) (uniq l')
  end.

Definition PlatformStrings_Clean (ps : PlatformStrings) : PlatformStrings :=
  let generic := uniq (Generic ps) in
  {| Generic := generic;
     Platform :=
       map (fun p =>
              (fst p,
               List.filter (fun s => negb (hasString s generic))
                           (uniq (snd p))))
           (Platform ps) |}.

(** Modelled from the spec: [packages.Target] and [packages.Package] are
    declared outside the available sources; these are the fields the
    generator reads. *)
Record Target : Type := mkTarget
  { Sources : PlatformStrings;
    Imports : PlatformStrings;
    COpts : PlatformStrings;
    CLinkOpts : PlatformStrings }.

Record Package : Type := mkPackage
  { Dir : string;
    Rel : string;
    Library : Target;
    CgoLibrary : Target;
    Binary : Target;
    Test : Target;
    XTest : Target;
    HasPbGo : bool;
    HasTestdata : bool;
    Protos : list string }.

(** The values a [keyvalue] carries: a string, a [[]string], a
    [PlatformStrings] or a [globvalue]. *)
Inductive value : Type :=
| VString (s : string)
| VStrings (ss : list string)
| VPlatform (ps : PlatformStrings)
| VGlob (patterns : list string).

Record keyvalue : Type := mkKeyvalue { key : string; val : value }.

(** Modelled from the spec: [newRule] and [bf.Rule] are declared outside the
    available sources.  A rule is a call of its kind on positional arguments
    followed by the attributes in the order given; [Name] reads the
    attribute called name. *)
Record Rule : Type := mkRule
  { Kind : string; Args : list string; Attrs : list keyvalue }.

Definition newRule (kind : string) (args : list string)
    (attrs : list keyvalue) : Rule :=
  {| Kind := kind; Args := args; Attrs := attrs |}.

Fixpoint Attr (k : string) (attrs : list keyvalue) : option value :=
  match attrs with
  | [] => None
  | a :: attrs' => if String.eqb (key a) k then Some (val a) else Attr k attrs'
  end.

Definition Rule_Name (r0 : Rule) : string :=
  match Attr "name" (Attrs r0) with
  | Some (VString s) => s
  | _ => ""
  end.

Definition AttrKeys (r0 : Rule) : list string := map key (Attrs r0).

(** *** The load statement *)

Record CallExpr : Type := mkCallExpr
  { X : string; List_ : list string; ForceCompact : bool }.

Definition loadableKinds : list string :=
  ["cgo_library"; "go_binary"; "go_library"; "go_prefix"; "go_test"].

(** The Go map [kinds]: a missing key reads as [false]. *)
Definition kindsOf (rs : list Rule) : gmap string bool :=
  fold_left (fun kinds r0 => <[Kind r0 := true]> kinds) rs ∅.

Definition kindsAt (kinds : gmap string bool) (k : string) : bool :=
  match kinds !! k with Some b => b | None => false end.

(** [generateLoad]; [None] is the [nil] expression. *)
Definition generateLoad (rs : list Rule) : option CallExpr :=
  let kinds := kindsOf rs in
  let args := [goRulesBzl] in
  let args :=
    fold_left (fun args k => if kindsAt kinds k then (args ++ [k])%list else args)
              loadableKinds args in
  if Nat.eqb (List.length args) 1 then None
  else Some {| X := "load"; List_ := args; ForceCompact := true |}.

(** *** Configuration and resolvers *)

(** Modelled from the spec: [config.Config] is declared outside the
    available sources; these are the fields the generator reads.  A
    dependency mode is a Go integer constant, so values other than the three
    named ones exist. *)
Inductive DependencyMode : Type :=
| ExternalMode
| VendorMode
| UnoMode
| OtherMode (n : nat).

Record Config : Type := mkConfig
  { GoPrefix : string;
    DepMode : DependencyMode;
    Dirs : list string;
    RepoRoot : string }.

(** Functions the generator calls that belong to Go's standard library or to
    files of the package outside the available sources.  Every statement
    below holds whatever they compute. *)
Class Env : Type := mkEnv
  { path_Clean : string -> string;
    path_Join : string -> string -> string;
    filepath_Base : string -> string;
    strconv_Quote : string -> string;
    Target_HasGo : Target -> bool;
    Package_IsCommand : Package -> bool;
    structuredResolver_resolve : string -> labelResolver;
    externalResolver_resolve : labelResolver;
    unoResolver_resolve : list string -> labelResolver }.

(** The value [e] of [NewGenerator]: one of the three mode-specific
    resolvers. *)
Inductive modeResolver : Type :=
| externalResolver
| vendoredResolver
| unoResolver (projRoots : list string).

(** [sort.Reverse(data)] wraps [data] in a value whose [Less] is inverted;
    it reorders nothing. *)
Record reverse : Type := mkReverse { Interface : list string }.
Definition sort_Reverse (data : list string) : reverse := mkReverse data.

(** Which resolver handles an import: the test of the closure that
    [NewGenerator] stores in [generator.r]. *)
Inductive route : Type := ModeSpecific | Structured.

Definition dispatch (goPrefix importpath : string) : route :=
  if negb (String.eqb importpath goPrefix)
     && negb (HasPrefix importpath (goPrefix ++ "/"))
     && negb (isRelative importpath)
  then ModeSpecific
  else Structured.

(** Modelled from the spec: [unoResolver.resolve] is outside the available
    sources.  The roots are tried in the order of [projRoots]; the first one
    that is a prefix of the containing directory roots the label. *)
Definition unoProjectRoot (projRoots : list string) (dir : string)
  : option string :=
  List.find (fun root => HasPrefix dir root) projRoots.

Section Resolvers.
Context `{Env}.

Definition modeResolver_resolve (e : modeResolver) : labelResolver :=
  match e with
  | externalResolver => externalResolver_resolve
  | vendoredResolver => vendoredResolver_resolve
  | unoResolver projRoots => unoResolver_resolve projRoots
  end.

(** The [switch c.DepMode] of [NewGenerator]; [None] is the [default]
    branch, where [NewGenerator] returns [nil]. *)
Definition newModeResolver (c : Config) : option modeResolver :=
  match DepMode c with
  | ExternalMode => Some externalResolver
  | VendorMode => Some vendoredResolver
  | UnoMode =>
      let dirs :=
        map (fun dir => TrimPrefix dir (path_Clean (RepoRoot c) ++ "/"))
            (Dirs c) in
      let dirs := sort_Sort dirs in
      let _ := sort_Reverse dirs in
      Some (unoResolver dirs)
  | OtherMode _ => None
  end.

Record generator : Type := mkGenerator { c : Config; r : labelResolver }.

Definition resolverFunc (c : Config) (e : modeResolver) : labelResolver :=
  fun importpath dir =>
    match dispatch (GoPrefix c) importpath with
    | ModeSpecific => modeResolver_resolve e importpath dir
    | Structured => structuredResolver_resolve (GoPrefix c) importpath dir
    end.

Definition NewGenerator (c : Config) : option generator :=
  match newModeResolver c with
  | Some e => Some {| c := c; r := resolverFunc c e |}
  | None => None
  end.

(** *** Logging and [dependencies] *)

(** A computation that may call [log.Print]: its value and the lines it
    logged, in order. *)
Definition Logged (A : Type) : Type := (A * list string)%type.

Definition ret {A : Type} (a : A) : Logged A := (a, []).

Definition bind {A B : Type} (m : Logged A) (f : A -> Logged B) : Logged B :=
  let (a, l1) := m in let (b, l2) := f a in (b, (l1 ++ l2)%list).

Definition log_Print (msg : string) : Logged unit := (tt, [msg]).

Fixpoint logAll (errors : list string) : Logged unit :=
  match errors with
  | [] => ret tt
  | err :: errors' => bind (log_Print err) (fun _ => logAll errors')
  end.

(** [fmt.Errorf("in dir %q, could not resolve import path %q: %v", ...)] *)
Definition resolveError (dir imp err : string) : string :=
  "in dir " ++ strconv_Quote dir ++ ", could not resolve import path "
  ++ strconv_Quote imp ++ ": " ++ err.

(** [dependencies] *)
Definition dependencies (g : generator) (imports : PlatformStrings)
    (dir : string) : Logged PlatformStrings :=
  let resolve := fun imp =>
    match r g imp dir with
    | Err err => Err (resolveError dir imp err)
    | Ok l => Ok (label_String l)
    end in
  let (deps, errors) := PlatformStrings_Map resolve imports in
  bind (logAll errors) (fun _ =>
  let deps := PlatformStrings_Clean deps in
  ret deps).

End Resolvers.

Module LogNotations.
Notation "'let*' x := m 'in' k" := (bind m (fun x => k))
  (at level 10, x pattern, m at level 100, k at level 200).
End LogNotations.

End Rules.

Import Rules.
Import Rules.LogNotations.

(** ** The rule assembler, revision with [bfPath] *)

Module GeneratorA.
Section Generator.
Context `{Env}.

(** [relPath] *)
Definition relPath (base p : string) : string :=
  let cleanP := path_Clean p in
  let cleanBase := path_Clean base in
  if negb (String.eqb cleanP cleanBase) && HasPrefix cleanP cleanBase
  then sliceFrom 1 (TrimPrefix cleanP cleanBase)
  else "".

Definition generateRule (g : generator)
    (bfPath rel kind name visibility library : string) (hasTestdata : bool)
    (target : Target) : Logged Rule :=
  let bfRel := relPath bfPath (path_Join (RepoRoot (c g)) rel) in
  let prependBfRel := fun s : string => @Ok string (bfRel ++ "/" ++ s) in
  let name := if negb (String.eqb bfRel "") then bfRel else name in
  let attrs := [mkKeyvalue "name" (VString name)] in
  let attrs :=
    if negb (PlatformStrings_IsEmpty (Sources target))
    then
      let srcs := Sources target in
      let srcs :=
        if negb (String.eqb bfRel "")
        then fst (PlatformStrings_Map prependBfRel (Sources target))
        else srcs in
      (attrs ++ [mkKeyvalue "srcs" (VPlatform srcs)])%list
    else attrs in
  let attrs :=
    if negb (PlatformStrings_IsEmpty (CLinkOpts target))
    then (attrs ++ [mkKeyvalue "clinkopts" (VPlatform (CLinkOpts target))])%list
    else attrs in
  let attrs :=
    if negb (PlatformStrings_IsEmpty (COpts target))
    then (attrs ++ [mkKeyvalue "copts" (VPlatform (COpts target))])%list
    else attrs in
  let attrs :=
    if hasTestdata
    then
      let glob :=
        if negb (String.eqb bfRel "")
        then VGlob [(bfRel ++ "/testdata/**")%string]
        else VGlob ["testdata/**"] in
      (attrs ++ [mkKeyvalue "data" glob])%list
    else attrs in
  let attrs :=
    if negb (String.eqb library "")
    then (attrs ++ [mkKeyvalue "library" (VString (":" ++ library))])%list
    else attrs in
  let attrs :=
    if negb (String.eqb visibility "")
    then (attrs ++ [mkKeyvalue "visibility" (VStrings [visibility])])%list
    else attrs in
  let* attrs :=
    (if negb (PlatformStrings_IsEmpty (Imports target))
     then let* deps := dependencies g (Imports target) rel in
          ret (attrs ++ [mkKeyvalue "deps" (VPlatform deps)])%list
     else ret attrs) in
  ret (newRule kind [] attrs).

Definition generateBin (g : generator) (bfPath : string) (pkg : Package)
    (library : string) : Logged (option Rule) :=
  if negb (Package_IsCommand pkg)
     || PlatformStrings_IsEmpty (Sources (Binary pkg)) && String.eqb library ""
  then ret None
  else
    let name := filepath_Base (Dir pkg) in
    let visibility := checkInternalVisibility (Rel pkg) "//visibility:public" in
    let* rule := generateRule g bfPath (Rel pkg) "go_binary" name visibility
                              library false (Binary pkg) in
    ret (Some rule).

Definition generateLib (g : generator) (bfPath : string) (pkg : Package)
    (cgoName : string) : Logged (string * option Rule) :=
  if negb (Target_HasGo (Library pkg)) && String.eqb cgoName ""
  then ret ("", None)
  else
    let name := defaultLibName in
    let visibility :=
      if Package_IsCommand pkg then "//visibility:private"
      else checkInternalVisibility (Rel pkg) "//visibility:public" in
    let* rule := generateRule g bfPath (Rel pkg) "go_library" name visibility
                              cgoName false (Library pkg) in
    ret (Rule_Name rule, Some rule).

Definition generateCgoLib (g : generator) (bfPath : string) (pkg : Package)
  : Logged (string * option Rule) :=
  if negb (Target_HasGo (CgoLibrary pkg))
  then ret ("", None)
  else
    let name := defaultCgoLibName in
    let visibility := "//visibility:private" in
    let* rule := generateRule g bfPath (Rel pkg) "cgo_library" name visibility
                              "" false (CgoLibrary pkg) in
    ret (Rule_Name rule, Some rule).

(** In [filegroup] the loop that prefixes the proto files ranges over the
    slice it has just replaced by an empty one, so it adds nothing. *)
Definition filegroup (g : generator) (bfPath : string) (pkg : Package)
  : option Rule :=
  let bfRel := relPath bfPath (Dir pkg) in
  if negb (HasPbGo pkg) || Nat.eqb (List.length (Protos pkg)) 0
  then None
  else
    let name := defaultProtosName in
    let protos := Protos pkg in
    let '(name, protos) :=
      if negb (String.eqb bfRel "")
      then
        let protos : list string := [] in
        let protos :=
          fold_left
            (fun acc proto => (acc ++ [(bfRel ++ "/" ++ proto)%string])%list)
            protos protos in
        (bfRel ++ "_" ++ defaultProtosName, protos)
      else (name, protos) in
    Some (newRule "filegroup" []
            [ mkKeyvalue "name" (VString name);
              mkKeyvalue "srcs" (VStrings protos);
              mkKeyvalue "visibility" (VStrings ["//visibility:public"]) ]).

Definition generateTest (g : generator) (bfPath : string) (pkg : Package)
    (library : string) : Logged (option Rule) :=
  if negb (Target_HasGo (Test pkg))
  then ret None
  else
    let name :=
      if String.eqb library "" || String.eqb library defaultLibName
      then defaultTestName
      else library ++ "_test" in
    let* rule := generateRule g bfPath (Rel pkg) "go_test" name "" library
                              (HasTestdata pkg) (Test pkg) in
    ret (Some rule).

Definition generateXTest (g : generator) (bfPath : string) (pkg : Package)
    (library : string) : Logged (option Rule) :=
  if negb (Target_HasGo (XTest pkg))
  then ret None
  else
    let name :=
      if String.eqb library "" || String.eqb library defaultLibName
      then defaultXTestName
      else library ++ "_xtest" in
    let* rule := generateRule g bfPath (Rel pkg) "go_test" name "" ""
                              (HasTestdata pkg) (XTest pkg) in
    ret (Some rule).

(** [if r != nil { rules = append(rules, r) }] *)
Definition appendRule (rules : list Rule) (r0 : option Rule) : list Rule :=
  match r0 with
  | Some rule => (rules ++ [rule])%list
  | None => rules
  end.

Definition generateRules (g : generator) (bfPath : string) (pkg : Package)
  : Logged (list Rule) :=
  let rules := [] in
  let rules :=
    if String.eqb (Rel pkg) ""
    then (rules ++ [newRule "go_prefix" [GoPrefix (c g)] []])%list
    else rules in
  let* (cgoLibrary, r0) := generateCgoLib g bfPath pkg in
  let rules := appendRule rules r0 in
  let* (library, r0) := generateLib g bfPath pkg cgoLibrary in
  let rules := appendRule rules r0 in
  let* r0 := generateBin g bfPath pkg library in
  let rules := appendRule rules r0 in
  let rules := appendRule rules (filegroup g bfPath pkg) in
  let* r0 := generateTest g bfPath pkg library in
  let rules := appendRule rules r0 in
  let* r0 := generateXTest g bfPath pkg library in
  let rules := appendRule rules r0 in
  ret rules.

Definition generateVendorRules (g : generator) (bfPath : string)
    (pkg : Package) : Logged (list Rule) :=
  let rules := [] in
  let* (cgoLibrary, r0) := generateCgoLib g bfPath pkg in
  let rules := appendRule rules r0 in
  let* (_, r0) := generateLib g bfPath pkg cgoLibrary in
  let rules := appendRule rules r0 in
  let rules := appendRule rules (filegroup g bfPath pkg) in
  ret rules.

End Generator.
End GeneratorA.

(** ** The rule assembler, revision without [bfPath] *)

Module GeneratorB.
Section Generator.
Context `{Env}.

Definition generateRule (g : generator)
    (rel kind name visibility library : string) (hasTestdata : bool)
    (target : Target) : Logged Rule :=
  let attrs := [mkKeyvalue "name" (VString name)] in
  let attrs :=
    if negb (PlatformStrings_IsEmpty (Sources target))
    then (attrs ++ [mkKeyvalue "srcs" (VPlatform (Sources target))])%list
    else attrs in
  let attrs :=
    if negb (PlatformStrings_IsEmpty (CLinkOpts target))
    then (attrs ++ [mkKeyvalue "clinkopts" (VPlatform (CLinkOpts target))])%list
    else attrs in
  let attrs :=
    if negb (PlatformStrings_IsEmpty (COpts target))
    then (attrs ++ [mkKeyvalue "copts" (VPlatform (COpts target))])%list
    else attrs in
  let attrs :=
    if hasTestdata
    then (attrs ++ [mkKeyvalue "data" (VGlob ["testdata/**"])])%list
    else attrs in
  let attrs :=
    if negb (String.eqb library "")
    then (attrs ++ [mkKeyvalue "library" (VString (":" ++ library))])%list
    else attrs in
  let attrs :=
    if negb (String.eqb visibility "")
    then (attrs ++ [mkKeyvalue "visibility" (VStrings [visibility])])%list
    else attrs in
  let* attrs :=
    (if negb (PlatformStrings_IsEmpty (Imports target))
     then let* deps := dependencies g (Imports target) rel in
          ret (attrs ++ [mkKeyvalue "deps" (VPlatform deps)])%list
     else ret attrs) in
  ret (newRule kind [] attrs).

Definition generateBin (g : generator) (pkg : Package) (library : string)
  : Logged (option Rule) :=
  if negb (Package_IsCommand pkg)
     || PlatformStrings_IsEmpty (Sources (Binary pkg)) && String.eqb library ""
  then ret None
  else
    let name := filepath_Base (Dir pkg) in
    let visibility := checkInternalVisibility (Rel pkg) "//visibility:public" in
    let* rule := generateRule g (Rel pkg) "go_binary" name visibility library false
                         (Binary pkg) in
    ret (Some rule).

Definition generateLib (g : generator) (pkg : Package) (cgoName : string)
  : Logged (string * option Rule) :=
  if negb (Target_HasGo (Library pkg)) && String.eqb cgoName ""
  then ret ("", None)
  else
    let name := defaultLibName in
    let visibility :=
      if Package_IsCommand pkg then "//visibility:private"
      else checkInternalVisibility (Rel pkg) "//visibility:public" in
    let* rule := generateRule g (Rel pkg) "go_library" name visibility cgoName false
                         (Library pkg) in
    ret (name, Some rule).

Definition generateCgoLib (g : generator) (pkg : Package)
  : Logged (string * option Rule) :=
  if negb (Target_HasGo (CgoLibrary pkg))
  then ret ("", None)
  else
    let name := defaultCgoLibName in
    let visibility := "//visibility:private" in
    let* rule := generateRule g (Rel pkg) "cgo_library" name visibility "" false
                         (CgoLibrary pkg) in
    ret (name, Some rule).

Definition filegroup (g : generator) (pkg : Package) : option Rule :=
  if negb (HasPbGo pkg) || Nat.eqb (List.length (Protos pkg)) 0
  then None
  else Some (newRule "filegroup" []
               [ mkKeyvalue "name" (VString defaultProtosName);
                 mkKeyvalue "srcs" (VStrings (Protos pkg));
                 mkKeyvalue "visibility" (VStrings ["//visibility:public"]) ]).

Definition generateTest (g : generator) (pkg : Package) (library : string)
  : Logged (option Rule) :=
  if negb (Target_HasGo (Test pkg))
  then ret None
  else
    let name :=
      if String.eqb library "" || String.eqb library defaultLibName
      then defaultTestName
      else library ++ "_test" in
    let* rule := generateRule g (Rel pkg) "go_test" name "" library
                         (HasTestdata pkg) (Test pkg) in
    ret (Some rule).

Definition generateXTest (g : generator) (pkg : Package) (library : string)
  : Logged (option Rule) :=
  if negb (Target_HasGo (XTest pkg))
  then ret None
  else
    let name :=
      if String.eqb library "" || String.eqb library defaultLibName
      then defaultXTestName
      else library ++ "_xtest" in
    let* rule := generateRule g (Rel pkg) "go_test" name "" ""
                         (HasTestdata pkg) (XTest pkg) in
    ret (Some rule).

(** [if r != nil { rules = append(rules, r) }] *)
Definition appendRule (rules : list Rule) (r0 : option Rule) : list Rule :=
  match r0 with
  | Some rule => (rules ++ [rule])%list
  | None => rules
  end.

Definition generateRules (g : generator) (pkg : Package)
  : Logged (list Rule) :=
  let rules := [] in
  let rules :=
    if String.eqb (Rel pkg) ""
    then (rules ++ [newRule "go_prefix" [GoPrefix (c g)] []])%list
    else rules in
  let* (cgoLibrary, r0) := generateCgoLib g pkg in
  let rules := appendRule rules r0 in
  let* (library, r0) := generateLib g pkg cgoLibrary in
  let rules := appendRule rules r0 in
  let* r0 := generateBin g pkg library in
  let rules := appendRule rules r0 in
  let rules := appendRule rules (filegroup g pkg) in
  let* r0 := generateTest g pkg library in
  let rules := appendRule rules r0 in
  let* r0 := generateXTest g pkg library in
  let rules := appendRule rules r0 in
  ret rules.

End Generator.
End GeneratorB.

(** ** The generated build file *)

(** Modelled from the spec: [bf.File] and the method
    [Config.DefaultBuildFileName] are declared outside the available
    sources.  A file is its path and its statements; a statement of a
    generated file is the load statement or the call of a rule. *)
Module BuildFile.

Inductive Expr : Type :=
| LoadCall (call : CallExpr)
| RuleCall (rule : Rule).

Record File : Type := mkFile { Path : string; Stmt : list Expr }.

(** [filepath.Join] and the name of the build file, which the generator
    takes from outside. *)
Class FileEnv : Type := mkFileEnv
  { filepath_Join : string -> string -> string;
    DefaultBuildFileName : Config -> string }.

(** The two loops that fill [f.Stmt]: the load statement when there is one,
    then the call of every rule. *)
Definition statements (load : option CallExpr) (rs : list Rule) : list Expr :=
  let stmt := [] in
  let stmt :=
    match load with
    | Some call => (stmt ++ [LoadCall call])%list
    | None => stmt
    end in
  fold_left (fun stmt r0 => (stmt ++ [RuleCall r0])%list) rs stmt.

End BuildFile.

Import BuildFile.

(** [Generate] and [GenerateVendor] of the revision with [bfPath]. *)
Module GenerateA.
Section Generate.
Context `{Env} `{FileEnv}.

Definition Generate (g : generator) (pkg : Package) : Logged File :=
  let path := filepath_Join (Dir pkg) (DefaultBuildFileName (c g)) in
  let* rs := GeneratorA.generateRules g (Dir pkg) pkg in
  ret {| Path := path; Stmt := statements (generateLoad rs) rs |}.

(** The loop over the vendored packages: the rules of each are appended. *)
Fixpoint vendorRules (g : generator) (bfPath : string)
    (vendored : list Package) (rules : list Rule) : Logged (list Rule) :=
  match vendored with
  | [] => ret rules
  | vendoredPkg :: vendored' =>
      let* rs := GeneratorA.generateVendorRules g bfPath vendoredPkg in
      vendorRules g bfPath vendored' (rules ++ rs)%list
  end.

Definition GenerateVendor (g : generator) (bfPath : string)
    (vendored : list Package) : Logged File :=
  let path := filepath_Join bfPath (DefaultBuildFileName (c g)) in
  let* rules := vendorRules g bfPath vendored [] in
  ret {| Path := path; Stmt := statements (generateLoad rules) rules |}.

End Generate.
End GenerateA.

(** [Generate] of the revision without [bfPath].  It also prints one line
    per package on the standard output, which the first component of the
    result holds. *)
Module GenerateB.
Section Generate.
Context `{Env} `{FileEnv}.

Definition newline : string := String (ascii_of_nat 10) EmptyString.

Definition Generate (g : generator) (pkg : Package)
  : Logged (list string * File) :=
  let isVendored := false in
  let isVendored :=
    fold_left
      (fun isVendored d =>
         if HasPrefix (Dir pkg) (path_Clean (d ++ "/vendor/"))
         then true else isVendored)
      (Dirs (c g)) isVendored in
  let printed :=
    if isVendored
    then ["Is vendored:    " ++ Dir pkg ++ newline]
    else ["Isn't vendored: " ++ Dir pkg ++ newline] in
  let path := filepath_Join (Dir pkg) (DefaultBuildFileName (c g)) in
  let* rs := GeneratorB.generateRules g pkg in
  ret (printed, {| Path := path; Stmt := statements (generateLoad rs) rs |}).

End Generate.
End GenerateB.

(** ** The merge engine *)

(** Modelled from the spec: merger.go is outside the available sources (its
    test is present).  The existing build file is a tree whose list elements
    may carry the trailing preservation marker; the generated file holds
    rules as the generator builds them: a kind, a name and attributes whose
    values are a string, a list of strings, a platform-partitioned set or a
    glob, so that no generated element has a marker.

    Rules pair up by identical kind and name; when a file repeats a kind
    and name, the first rule that has them is the match.  For a matched pair
    the new value of an attribute wins, and the marked elements of the
    existing value are kept behind whatever the new value holds, also when
    the new rule has no such attribute; an attribute found only on the
    existing rule is carried over unchanged when it is a hand-authored one;
    the result is put in the fixed priority order.  Existing rules without
    a match, and rules of kinds outside the managed catalog, stay as they
    are; new rules without a match are added, their attributes in the same
    priority order; the load statement is computed again from the kinds of
    the final rules.  The catalog of managed kinds, the classification of
    hand-authored attributes and the priority of an attribute are
    parameters. *)
Module Merger.

Record element : Type := mkElement { text : string; keep : bool }.

(** A generated string as a list element: it has no marker. *)
Definition plain (s : string) : element := {| text := s; keep := false |}.

(** The values of the existing tree.  [ConcatExpr v l] is a value that is
    not a list followed by a list, as in [glob(...) + [...]]: what an
    attribute holds once marked elements were kept behind it. *)
Inductive expr : Type :=
| StringExpr (s : string)
| ListExpr (l : list element)
| PlatformExpr (ps : PlatformStrings)
| GlobExpr (patterns : list string)
| ConcatExpr (generated : value) (retained : list element).

Definition attr : Type := (string * expr)%type.

Record rule : Type := mkrule
  { kind : string; name : string; attrs : list attr }.

Record tree : Type := mktree
  { load : option CallExpr; rules : list rule }.

(** A generated rule and a generated file. *)
Record generatedRule : Type := mkgenerated
  { gkind : string; gname : string; gattrs : list (string * value) }.

Record generated : Type := mkgeneratedTree
  { gload : option CallExpr; grules : list generatedRule }.

Fixpoint lookupAttr (k : string) (l : list attr) : option expr :=
  match l with
  | [] => None
  | a :: l' => if String.eqb (fst a) k then Some (snd a) else lookupAttr k l'
  end.

Fixpoint lookupValue (k : string) (l : list (string * value)) : option value :=
  match l with
  | [] => None
  | a :: l' => if String.eqb (fst a) k then Some (snd a) else lookupValue k l'
  end.

Definition hasValue (k : string) (l : list (string * value)) : bool :=
  existsb (fun a => String.eqb (fst a) k) l.

(** The list elements of a value. *)
Definition elements (e : expr) : list element :=
  match e with
  | ListExpr l => l
  | ConcatExpr _ retained => retained
  | _ => []
  end.

Definition kept (l : list element) : list element := List.filter keep l.

(** The list elements a generated value brings. *)
Definition generatedElements (new : value) : list element :=
  match new with
  | VStrings ss => map plain ss
  | _ => []
  end.

(** A generated value as it stands in a tree. *)
Definition plainExpr (new : value) : expr :=
  match new with
  | VString s => StringExpr s
  | VStrings ss => ListExpr (map plain ss)
  | VPlatform ps => PlatformExpr ps
  | VGlob patterns => GlobExpr patterns
  end.

(** A generated value with retained elements behind it. *)
Definition withRetained (new : value) (retained : list element) : expr :=
  match new with
  | VStrings ss => ListExpr (map plain ss ++ retained)
  | _ => match retained with
         | [] => plainExpr new
         | _ :: _ => ConcatExpr new retained
         end
  end.

(** New value wins; the marked elements of the existing value survive
    behind it. *)
Definition mergeValue (old : option expr) (new : value) : expr :=
  withRetained new
    (kept (match old with Some e => elements e | None => [] end)).

(** The attributes of the new rule, each merged with the existing value. *)
Definition mergedNew (old : list attr) (new : list (string * value))
  : list attr :=
  map (fun a => (fst a, mergeValue (lookupAttr (fst a) old) (snd a))) new.

Definition sameRule (a : rule) (g : generatedRule) : bool :=
  String.eqb (kind a) (gkind g) && String.eqb (name a) (gname g).

Definition sameGenerated (g h : generatedRule) : bool :=
  String.eqb (gkind g) (gkind h) && String.eqb (gname g) (gname h).

(** The generated rules that are the first of their kind and name. *)
Fixpoint firstOfEach (l : list generatedRule) : list generatedRule :=
  match l with
  | [] => []
  | g :: l' =>
      g :: List.filter (fun h => negb (sameGenerated g h)) (firstOfEach l')
  end.

(** The load statement for the kinds of a list of rules. *)
Definition composeLoad (rs : list rule) : option CallExpr :=
  generateLoad (map (fun r0 => newRule (kind r0) [] []) rs).

Section Merge.
Variable managedKind : string -> bool.
Variable handAuthored : string -> bool.
Variable priority : string -> nat.

(** Stable insertion by priority: an attribute goes before the first one
    whose priority is not smaller. *)
Fixpoint insertAttr (a : attr) (l : list attr) : list attr :=
  match l with
  | [] => [a]
  | b :: l' =>
      if Nat.leb (priority (fst a)) (priority (fst b)) then a :: l
      else b :: insertAttr a l'
  end.

Definition orderAttrs (l : list attr) : list attr :=
  fold_right insertAttr [] l.

(** What becomes of an attribute of the existing rule that the new rule
    may lack: nothing when the new rule has it (the new value stands for
    it), itself when it is hand-authored, and otherwise its marked
    elements, when it has some. *)
Definition carry (new : list (string * value)) (a : attr) : list attr :=
  if hasValue (fst a) new then []
  else if handAuthored (fst a) then [a]
  else match kept (elements (snd a)) with
       | [] => []
       | retained => [(fst a, ListExpr retained)]
       end.

Definition mergeAttrs (old : list attr) (new : list (string * value))
  : list attr :=
  orderAttrs (mergedNew old new ++ flat_map (carry new) old).

Definition mergeRule (old : rule) (new : generatedRule) : rule :=
  {| kind := kind old; name := name old;
     attrs := mergeAttrs (attrs old) (gattrs new) |}.

(** A new rule as it is added to the tree. *)
Definition insertedRule (new : generatedRule) : rule :=
  {| kind := gkind new; name := gname new;
     attrs := mergeAttrs [] (gattrs new) |}.

(** What becomes of one existing rule. *)
Definition mergeExisting (news : list generatedRule) (old : rule) : rule :=
  if managedKind (kind old)
  then match List.find (sameRule old) news with
       | Some new => mergeRule old new
       | None => old
       end
  else old.

Definition unmatched (olds : list rule) (new : generatedRule) : bool :=
  negb (existsb (fun old => sameRule old new) olds).

Definition mergeRules (olds : list rule) (news : list generatedRule)
  : list rule :=
  (map (mergeExisting news) olds
   ++ map insertedRule (List.filter (unmatched olds) (firstOfEach news)))%list.

(** [merge T G]: the existing tree [T] reconciled with the generated [G]. *)
Definition merge (T : tree) (G : generated) : tree :=
  let rs := mergeRules (rules T) (grules G) in
  {| load := composeLoad rs; rules := rs |}.

(** Attributes in priority order. *)
Definition allAbove (a : attr) (l : list attr) : bool :=
  forallb (fun b => Nat.leb (priority (fst a)) (priority (fst b))) l.

Fixpoint inOrder (l : list attr) : bool :=
  match l with
  | [] => true
  | a :: l' => allAbove a l' && inOrder l'
  end.

End Merge.

(** The merge of the repository's test, [TestMergeWithExisting]: the managed
    kinds are the ones the generator emits, srcs, deps and library are the
    attributes the tool computes, and the priorities put name, size, srcs,
    data, library in the order of the expected file. *)
Module Test.

Definition managedKind (k : string) : bool :=
  hasString k ["go_prefix"; "cgo_library"; "go_library"; "go_binary";
               "filegroup"; "go_test"].

Definition handAuthored (k : string) : bool :=
  negb (hasString k ["srcs"; "deps"; "library"]).

Definition priority (k : string) : nat :=
  if String.eqb k "size" then 1
  else if String.eqb k "srcs" then 2
  else if String.eqb k "clinkopts" then 3
  else if String.eqb k "copts" then 4
  else if String.eqb k "data" then 5
  else if String.eqb k "library" then 6
  else if String.eqb k "visibility" then 7
  else if String.eqb k "deps" then 8
  else 9.

Definition marked (s : string) : element := {| text := s; keep := true |}.

Definition loadOf (kinds : list string) : option CallExpr :=
  Some {| X := "load"; List_ := goRulesBzl :: kinds; ForceCompact := true |}.

Definition oldLibrary : rule :=
  mkrule "go_library" "go_default_library" [("srcs", GlobExpr ["*.go"])].

Definition oldTest : rule :=
  mkrule "go_test" "go_default_test"
    [("size", StringExpr "small");
     ("srcs", ListExpr [marked "gen_test.go"; plain "parse_test.go"]);
     ("data", GlobExpr ["testdata/*"]);
     ("library", StringExpr ":go_default_library")].

Definition oldData : tree :=
  {| load := loadOf ["go_library"; "go_test"; "go_binary"];
     rules := [oldLibrary; oldTest] |}.

Definition newData : generated :=
  {| gload := loadOf ["go_test"; "go_library"];
     grules :=
       [ mkgenerated "go_library" "go_default_library"
           [("srcs", VStrings ["lex.go"; "print.go"])];
         mkgenerated "go_test" "go_default_test"
           [("srcs", VStrings ["parse_test.go"; "print_test.go"]);
            ("library", VString ":go_default_library")] ] |}.

Definition expected : tree :=
  {| load := loadOf ["go_library"; "go_test"];
     rules :=
       [ mkrule "go_library" "go_default_library"
           [("srcs", ListExpr [plain "lex.go"; plain "print.go"])];
         mkrule "go_test" "go_default_test"
           [("size", StringExpr "small");
            ("srcs", ListExpr [plain "parse_test.go"; plain "print_test.go";
                               marked "gen_test.go"]);
            ("data", GlobExpr ["testdata/*"]);
            ("library", StringExpr ":go_default_library")] ] |}.

(** A generated test rule whose srcs is a glob. *)
Definition globTest : generatedRule :=
  mkgenerated "go_test" "go_default_test" [("srcs", VGlob ["*_test.go"])].

Definition globData : generated :=
  {| gload := loadOf ["go_test"]; grules := [globTest] |}.

End Test.

End Merger.

(** ** Vocabulary of the statements, and concrete inputs *)

Module Props.

(** An import the structured resolver serves: the module prefix itself, a
    path below it, or a relative path. *)
Definition localImport (goPrefix importpath : string) : Prop :=
  importpath = goPrefix
  \/ (exists rest, importpath = goPrefix ++ "/" ++ rest)
  \/ (exists rest, importpath = "./" ++ rest)
  \/ (exists rest, importpath = ".." ++ rest).

(** The loadable kinds some rule of the list has, in catalog order. *)
Definition presentKinds (rs : list Rule) : list string :=
  List.filter (fun k => hasString k (map Kind rs)) loadableKinds.

(** The attributes after name, in the order [generateRule] adds them. *)
Definition attrPriority : list string :=
  ["srcs"; "clinkopts"; "copts"; "data"; "library"; "visibility"; "deps"].

(** The attribute keys of a rule are name followed by a selection of
    [attrPriority], in that order. *)
Definition nameFirstInOrder (r0 : Rule) : Prop :=
  exists present : string -> bool,
    AttrKeys r0 = "name" :: List.filter present attrPriority.

(** The rules of one package, in either revision of the generator. *)
Definition generates `{Env} (g : generator) (bfPath : string) (pkg : Package)
    (r0 : Rule) : Prop :=
  In r0 (fst (GeneratorB.generateRules g pkg))
  \/ In r0 (fst (GeneratorA.generateRules g bfPath pkg))
  \/ In r0 (fst (GeneratorA.generateVendorRules g bfPath pkg)).

(** Kind and name of one rule, or nothing. *)
Definition idIf (b : bool) (kind name : string) : list (string * string) :=
  if b then [(kind, name)] else [].

(** Kind and name of the rules of a package, in the order of assembly, each
    with the condition under which the rule is there. *)
Definition packageIds `{Env} (pkg : Package) : list (string * string) :=
  let cgo := Target_HasGo (CgoLibrary pkg) in
  let lib := Target_HasGo (Library pkg) || cgo in
  let bin :=
    Package_IsCommand pkg
    && (negb (PlatformStrings_IsEmpty (Sources (Binary pkg))) || lib) in
  let protos := HasPbGo pkg && negb (Nat.eqb (List.length (Protos pkg)) 0) in
  (idIf (String.eqb (Rel pkg) "") "go_prefix" ""
   ++ idIf cgo "cgo_library" defaultCgoLibName
   ++ idIf lib "go_library" defaultLibName
   ++ idIf bin "go_binary" (filepath_Base (Dir pkg))
   ++ idIf protos "filegroup" defaultProtosName
   ++ idIf (Target_HasGo (Test pkg)) "go_test" defaultTestName
   ++ idIf (Target_HasGo (XTest pkg)) "go_test" defaultXTestName)%list.

(** Kind and name of a rule. *)
Definition ruleId (r0 : Rule) : string * string := (Kind r0, Rule_Name r0).

(** The rules a generated file calls, in order. *)
Definition fileRules (f : File) : list Rule :=
  flat_map (fun e => match e with RuleCall r0 => [r0] | LoadCall _ => [] end)
           (Stmt f).

(** The load statements of a list of statements. *)
Definition loadCalls (stmt : list Expr) : list CallExpr :=
  flat_map (fun e => match e with LoadCall call => [call] | RuleCall _ => [] end)
           stmt.

(** Every rule of the file whose kind needs loading is named by a load
    statement that opens the file and loads from the Go rules; no other
    statement is a load. *)
Definition wellLoaded (f : File) : Prop :=
  (forall r0, In r0 (fileRules f) -> In (Kind r0) loadableKinds ->
     exists call,
       hd_error (Stmt f) = Some (LoadCall call)
       /\ hd_error (List_ call) = Some goRulesBzl
       /\ In (Kind r0) (tl (List_ call)))
  /\ loadCalls (tl (Stmt f)) = [].

(** [sub] occurs in [s] at index [j]. *)
Definition occursAt (sub s : string) (j : nat) : Prop :=
  j <= String.length s /\ String.prefix sub (sliceFrom j s) = true.

End Props.

Module Fixtures.

Definition quote (s : string) : string :=
  String (ascii_of_nat 34) (s ++ String (ascii_of_nat 34) EmptyString).

(** A small environment: paths are taken to be clean already, only
    golang.org imports are known to the external resolver. *)
#[local] Instance env : Env :=
  {| path_Clean := fun p => p;
     path_Join := fun a b => if String.eqb b "" then a else a ++ "/" ++ b;
     filepath_Base := fun p => p;
     strconv_Quote := quote;
     Target_HasGo := fun t => negb (PlatformStrings_IsEmpty (Sources t));
     Package_IsCommand := fun _ => false;
     structuredResolver_resolve := fun goPrefix importpath dir =>
       Ok {| repo := "";
             pkg := sliceFrom 1 (TrimPrefix importpath goPrefix);
             name := defaultLibName; relative := false |};
     externalResolver_resolve := fun importpath dir =>
       if HasPrefix importpath "golang.org/"
       then Ok {| repo := "org_golang_x_net"; pkg := "";
                  name := defaultLibName; relative := false |}
       else Err "unknown repository";
     unoResolver_resolve := fun projRoots importpath dir =>
       Err "no project root" |}.

Definition unoConfig : Config :=
  {| GoPrefix := "example.com/repo"; DepMode := UnoMode;
     Dirs := ["/repo/sub1"; "/repo/sub1/nested"]; RepoRoot := "/repo" |}.

Definition vendorConfig : Config :=
  {| GoPrefix := "example.com/repo"; DepMode := VendorMode;
     Dirs := []; RepoRoot := "/repo" |}.

Definition externalConfig : Config :=
  {| GoPrefix := "example.com/repo"; DepMode := ExternalMode;
     Dirs := []; RepoRoot := "/repo" |}.

Definition externalGenerator : generator :=
  {| c := externalConfig;
     r := resolverFunc externalConfig externalResolver |}.

Definition noStrings : PlatformStrings := {| Generic := []; Platform := [] |}.

Definition strings (l : list string) : PlatformStrings :=
  {| Generic := l; Platform := [] |}.

Definition noTarget : Target :=
  {| Sources := noStrings; Imports := noStrings;
     COpts := noStrings; CLinkOpts := noStrings |}.

(** The root package of a repository, with one cgo source file. *)
Definition rootPackage : Package :=
  {| Dir := "/repo"; Rel := "";
     Library := noTarget;
     CgoLibrary :=
       {| Sources := strings ["cgo.go"]; Imports := noStrings;
          COpts := noStrings; CLinkOpts := noStrings |};
     Binary := noTarget; Test := noTarget; XTest := noTarget;
     HasPbGo := false; HasTestdata := false; Protos := [] |}.

(** A package below an internal directory. *)
Definition subPackage : Package :=
  {| Dir := "/repo/a/internal/c"; Rel := "a/internal/c";
     Library :=
       {| Sources := strings ["c.go"];
          Imports := strings ["golang.org/x/net"; "github.com/unknown/dep"];
          COpts := noStrings; CLinkOpts := noStrings |};
     CgoLibrary :=
       {| Sources := strings ["cgo.go"]; Imports := noStrings;
          COpts := noStrings; CLinkOpts := noStrings |};
     Binary := noTarget; Test := noTarget; XTest := noTarget;
     HasPbGo := false; HasTestdata := false; Protos := [] |}.

#[local] Instance fileEnv : FileEnv :=
  {| filepath_Join := fun a b => a ++ "/" ++ b;
     DefaultBuildFileName := fun _ => "BUILD" |}.

Definition goTarget (srcs imports : list string) : Target :=
  {| Sources := strings srcs; Imports := strings imports;
     COpts := noStrings; CLinkOpts := noStrings |}.

(** A package with a library, internal and external tests and proto files
    next to generated ones. *)
Definition testedPackage : Package :=
  {| Dir := "/repo/vendor/x"; Rel := "vendor/x";
     Library := goTarget ["x.go"; "x.pb.go"] [];
     CgoLibrary := noTarget;
     Binary := noTarget;
     Test := goTarget ["x_test.go"] [];
     XTest := goTarget ["x_ext_test.go"] [];
     HasPbGo := true; HasTestdata := true; Protos := ["x.proto"] |}.

Definition libraryRule : Rule :=
  newRule "go_library" []
    [mkKeyvalue "name" (VString defaultLibName);
     mkKeyvalue "srcs" (VStrings ["foo.pb.go"])].

End Fixtures.

(** * Properties *)

Import Props.

(** ** Strings *)

Lemma append_cons (a : ascii) (s t : string) :
  String a s ++ t = String a (s ++ t).
Proof. reflexivity. Qed.

Lemma append_assoc (s t u : string) : (s ++ t) ++ u = s ++ t ++ u.
Proof.
  induction s as [|a s IH]; [reflexivity|].
  now rewrite !append_cons, IH.
Qed.

Lemma prefix_app (p s : string) :
  String.prefix p s = true <-> exists rest, s = p ++ rest.
Proof.
  revert s. induction p as [|a p IH]; intros s.
  - split; [intros _; exists s; reflexivity | destruct s; reflexivity].
  - destruct s as [|b s]; simpl.
    + split; [discriminate | intros [rest Hr]; discriminate].
    + destruct (Ascii.ascii_dec a b) as [->|Hab].
      * rewrite IH. split; intros [rest Hr]; exists rest.
        -- now rewrite append_cons, Hr.
        -- rewrite append_cons in Hr. now inversion Hr.
      * split; [discriminate |].
        intros [rest Hr]. rewrite append_cons in Hr.
        injection Hr as Hba _. now subst.
Qed.

Lemma HasPrefix_app (s p : string) :
  HasPrefix s p = true <-> exists rest, s = p ++ rest.
Proof. apply prefix_app. Qed.

(** ** The vendor resolver *)

(** C7: the vendor resolver returns no error, and the label it returns has
    the package path vendor/ followed by the import path and the default
    library name as rule name; it prints as //vendor/<import>:<name>. *)
Theorem vendoredResolver_resolve_total (importpath dir : string) :
  (exists l, vendoredResolver_resolve importpath dir = Ok l
             /\ pkg l = "vendor/" ++ importpath
             /\ name l = defaultLibName
             /\ label_String l
                = "//vendor/" ++ importpath ++ ":go_default_library")
  /\ (forall msg, vendoredResolver_resolve importpath dir <> Err msg).
Proof.
  split.
  - eexists. split; [reflexivity|]. repeat split.
  - intros msg Hmsg. discriminate Hmsg.
Qed.

(** In vendor mode the generator resolves an import outside the module to
    the vendored label. *)
Lemma NewGenerator_vendor `{Env} (c0 : Config) (g : generator)
    (importpath dir : string) :
  DepMode c0 = VendorMode ->
  NewGenerator c0 = Some g ->
  dispatch (GoPrefix c0) importpath = ModeSpecific ->
  r g importpath dir = vendoredResolver_resolve importpath dir.
Proof.
  intros Hmode Hg Hd. unfold NewGenerator, newModeResolver in Hg.
  rewrite Hmode in Hg. inversion Hg; subst g; simpl.
  unfold resolverFunc. now rewrite Hd.
Qed.

Example vendor_golang_x_net :
  option_map (fun g => r g "golang.org/x/net" "sub")
             (@NewGenerator Fixtures.env Fixtures.vendorConfig)
  = Some (Ok {| repo := ""; pkg := "vendor/golang.org/x/net";
                name := "go_default_library"; relative := false |}).
Proof. reflexivity. Qed.

(** ** Dispatch between the structured and the mode-specific resolver *)

Lemma dispatch_Structured (goPrefix importpath : string) :
  dispatch goPrefix importpath = Structured <-> localImport goPrefix importpath.
Proof.
  unfold dispatch, localImport, isRelative.
  destruct (String.eqb_spec importpath goPrefix) as [->|Hne]; simpl.
  { split; [intros _; now left | reflexivity]. }
  destruct (HasPrefix importpath (goPrefix ++ "/")) eqn:Hp; simpl.
  { split; [intros _ | reflexivity].
    apply HasPrefix_app in Hp as [rest Hr]. right; left. exists rest.
    rewrite Hr. apply append_assoc. }
  destruct (HasPrefix importpath "./") eqn:Hdot; simpl.
  { split; [intros _ | reflexivity].
    apply HasPrefix_app in Hdot as [rest Hr]. right; right; left. eauto. }
  destruct (HasPrefix importpath "..") eqn:Hdd; simpl.
  { split; [intros _ | reflexivity].
    apply HasPrefix_app in Hdd as [rest Hr]. right; right; right. eauto. }
  split; [discriminate|].
  intros [Heq|[[rest Hr]|[[rest Hr]|[rest Hr]]]].
  - contradiction.
  - assert (HasPrefix importpath (goPrefix ++ "/") = true) as Ht.
    { apply HasPrefix_app. exists rest. rewrite Hr.
      symmetry; apply append_assoc. }
    congruence.
  - assert (HasPrefix importpath "./" = true) as Ht
      by (apply HasPrefix_app; eauto).
    congruence.
  - assert (HasPrefix importpath ".." = true) as Ht
      by (apply HasPrefix_app; eauto).
    congruence.
Qed.

(** C6: the resolver of a generator sends an import to the structured
    resolver exactly when it is the module prefix, lies below it or is
    relative, and to the resolver of the configured mode otherwise; the
    test looks at the one import only. *)
Theorem resolverFunc_dispatch `{Env} (c0 : Config) (g : generator)
    (importpath dir : string) :
  NewGenerator c0 = Some g ->
  exists e,
    newModeResolver c0 = Some e
    /\ (dispatch (GoPrefix c0) importpath = Structured
        <-> localImport (GoPrefix c0) importpath)
    /\ (localImport (GoPrefix c0) importpath ->
        r g importpath dir
        = structuredResolver_resolve (GoPrefix c0) importpath dir)
    /\ (~ localImport (GoPrefix c0) importpath ->
        r g importpath dir = modeResolver_resolve e importpath dir).
Proof.
  intros Hg. unfold NewGenerator in Hg.
  destruct (newModeResolver c0) as [e|] eqn:He; [|discriminate].
  inversion Hg; subst g; clear Hg. exists e. split; [reflexivity|].
  pose proof (dispatch_Structured (GoPrefix c0) importpath) as Hd.
  split; [exact Hd|]. simpl. unfold resolverFunc.
  destruct (dispatch (GoPrefix c0) importpath).
  - split; [intros Hl; apply Hd in Hl; discriminate | reflexivity].
  - split; [reflexivity | intros Hn; exfalso; apply Hn, Hd; reflexivity].
Qed.

Lemma resolverFunc_dispatch_witness :
  exists e,
    @newModeResolver Fixtures.env Fixtures.vendorConfig = Some e
    /\ (dispatch "example.com/repo" "example.com/repo/sub" = Structured
        <-> localImport "example.com/repo" "example.com/repo/sub")
    /\ (localImport "example.com/repo" "example.com/repo/sub" ->
        @resolverFunc Fixtures.env Fixtures.vendorConfig vendoredResolver
                      "example.com/repo/sub" "pkg"
        = @structuredResolver_resolve Fixtures.env "example.com/repo"
                                      "example.com/repo/sub" "pkg")
    /\ (~ localImport "example.com/repo" "example.com/repo/sub" ->
        @resolverFunc Fixtures.env Fixtures.vendorConfig vendoredResolver
                      "example.com/repo/sub" "pkg"
        = @modeResolver_resolve Fixtures.env e "example.com/repo/sub" "pkg").
Proof.
  apply (@resolverFunc_dispatch Fixtures.env Fixtures.vendorConfig
           {| c := Fixtures.vendorConfig;
              r := @resolverFunc Fixtures.env Fixtures.vendorConfig
                                 vendoredResolver |}
           "example.com/repo/sub" "pkg").
  reflexivity.
Defined.

Example structured_sub :
  option_map (fun g => r g "example.com/repo/sub" "")
             (@NewGenerator Fixtures.env Fixtures.vendorConfig)
  = Some (Ok {| repo := ""; pkg := "sub"; name := "go_default_library";
                relative := false |}).
Proof. reflexivity. Qed.

(** ** Visibility of packages below an internal directory *)

Example visibility_nested_internal :
  checkInternalVisibility "a/b/internal/c" "//visibility:public"
  = "//a/b:__subpackages__".
Proof. reflexivity. Qed.

Example visibility_root_internal :
  checkInternalVisibility "internal/c" "//visibility:public"
  = "//:__subpackages__".
Proof. reflexivity. Qed.

Example visibility_public :
  checkInternalVisibility "a/b" "//visibility:public" = "//visibility:public".
Proof. reflexivity. Qed.

(** C5: a package that is itself the internal directory (its path ends in
    the segment internal) keeps the default visibility: the function looks
    for the segment only when a slash follows it. *)
Theorem checkInternalVisibility_last_segment :
  checkInternalVisibility "a/internal" "//visibility:public"
  = "//visibility:public"
  /\ checkInternalVisibility "internal" "//visibility:public"
     = "//visibility:public".
Proof. split; reflexivity. Qed.

(** ** The project roots of the multi-root resolver *)

(** C3: for the roots sub1 and sub1/nested the resolver holds them in
    ascending order, because the reversed view that [sort.Reverse] builds is
    dropped; the first root that is a prefix of sub1/nested/pkg is then
    sub1, the shorter one. *)
Theorem newModeResolver_uno_order `{Env} :
  path_Clean "/repo" = "/repo" ->
  newModeResolver Fixtures.unoConfig
  = Some (unoResolver ["sub1"; "sub1/nested"])
  /\ unoProjectRoot ["sub1"; "sub1/nested"] "sub1/nested/pkg" = Some "sub1".
Proof.
  intros Hclean. split; [|reflexivity].
  unfold newModeResolver; simpl. now rewrite Hclean.
Qed.

Lemma newModeResolver_uno_order_witness :
  @path_Clean Fixtures.env "/repo" = "/repo"
  /\ @newModeResolver Fixtures.env Fixtures.unoConfig
     = Some (unoResolver ["sub1"; "sub1/nested"])
  /\ unoProjectRoot ["sub1"; "sub1/nested"] "sub1/nested/pkg" = Some "sub1".
Proof.
  split; [reflexivity|].
  apply (@newModeResolver_uno_order Fixtures.env). reflexivity.
Defined.

(** ** The load statement *)

Lemma kindsAt_insert (kinds : gmap string bool) (k k' : string) :
  kindsAt (<[k' := true]> kinds) k = String.eqb k k' || kindsAt kinds k.
Proof.
  unfold kindsAt. rewrite lookup_insert.
  destruct (String.eqb_spec k k') as [->|Hne].
  - now rewrite decide_True.
  - rewrite decide_False; [reflexivity | congruence].
Qed.

Lemma kindsAt_fold (rs : list Rule) (kinds : gmap string bool) (k : string) :
  kindsAt (fold_left (fun kinds r0 => <[Kind r0 := true]> kinds) rs kinds) k
  = hasString k (map Kind rs) || kindsAt kinds k.
Proof.
  revert kinds. induction rs as [|r0 rs IH]; intros kinds; simpl.
  - reflexivity.
  - rewrite IH, kindsAt_insert. unfold hasString.
    destruct (String.eqb k (Kind r0)); simpl;
      [now rewrite orb_true_r | reflexivity].
Qed.

Lemma kindsAt_kindsOf (rs : list Rule) (k : string) :
  kindsAt (kindsOf rs) k = hasString k (map Kind rs).
Proof.
  unfold kindsOf. rewrite kindsAt_fold. unfold kindsAt.
  rewrite lookup_empty. apply orb_false_r.
Qed.

Lemma fold_left_select (p : string -> bool) (l acc : list string) :
  fold_left (fun args k => if p k then (args ++ [k])%list else args) l acc
  = (acc ++ List.filter p l)%list.
Proof.
  revert acc. induction l as [|k l IH]; intros acc; simpl.
  - now rewrite app_nil_r.
  - rewrite IH. destruct (p k); [|reflexivity].
    now rewrite <- app_assoc.
Qed.

Lemma generateLoad_presentKinds (rs : list Rule) :
  generateLoad rs
  = match presentKinds rs with
    | [] => None
    | ks => Some {| X := "load"; List_ := goRulesBzl :: ks;
                    ForceCompact := true |}
    end.
Proof.
  unfold generateLoad. rewrite fold_left_select.
  assert (List.filter (kindsAt (kindsOf rs)) loadableKinds = presentKinds rs)
    as ->.
  { unfold presentKinds. apply filter_ext. intros k. apply kindsAt_kindsOf. }
  destruct (presentKinds rs); reflexivity.
Qed.

Lemma hasString_In (s : string) (l : list string) :
  hasString s l = true <-> In s l.
Proof.
  unfold hasString. rewrite existsb_exists. split.
  - intros [x [Hin Heq]]. apply String.eqb_eq in Heq. now subst.
  - intros Hin. exists s. split; [assumption | apply String.eqb_refl].
Qed.

(** One loadable kind is enough for a load statement: a file with a single
    go_library rule loads go_library. *)
Lemma generateLoad_single_kind :
  List.length (presentKinds [Fixtures.libraryRule]) = 1
  /\ generateLoad [Fixtures.libraryRule]
     = Some {| X := "load"; List_ := [goRulesBzl; "go_library"];
               ForceCompact := true |}.
Proof. split; reflexivity. Qed.

(** C2, as the code has it: no load statement is produced exactly when no
    rule has a loadable kind; otherwise the statement names the module path
    and then the loadable kinds present, in catalog order, and each of them
    is the kind of a rule of the list. *)
Theorem generateLoad_minimal (rs : list Rule) :
  (generateLoad rs = None <-> presentKinds rs = [])
  /\ (forall call, generateLoad rs = Some call ->
        X call = "load"
        /\ List_ call = goRulesBzl :: presentKinds rs
        /\ presentKinds rs <> []
        /\ forall k, In k (presentKinds rs) ->
             In k loadableKinds /\ exists r0, In r0 rs /\ Kind r0 = k).
Proof.
  rewrite generateLoad_presentKinds. split.
  - destruct (presentKinds rs); split; congruence.
  - intros call Hcall.
    assert (forall k, In k (presentKinds rs) ->
              In k loadableKinds /\ exists r0, In r0 rs /\ Kind r0 = k) as Hk.
    { intros k Hin. unfold presentKinds in Hin.
      apply filter_In in Hin as [Hcat Hhas]. split; [assumption|].
      apply hasString_In, in_map_iff in Hhas as [r0 [Hkind Hin]]. eauto. }
    destruct (presentKinds rs) as [|k ks] eqn:Hks; [discriminate|].
    inversion Hcall; subst call; simpl.
    split; [reflexivity|]. split; [reflexivity|]. split; [discriminate|].
    exact Hk.
Qed.

(** ** The rules one package yields *)

(** Unfolds a [Logged] computation of [generateRule] down to its pair. *)
Ltac run_logged :=
  unfold bind, ret; simpl;
  try match goal with
      | |- context [dependencies ?g ?i ?d] =>
          let deps := fresh "deps" in
          let logged := fresh "logged" in
          destruct (dependencies g i d) as [deps logged]
      end; simpl.

Module GeneratorBFacts.
Import GeneratorB.
Section Facts.
Context `{Env}.

(** The rule of [generateRule], one optional attribute after the other. *)
Lemma generateRule_fst (g : generator)
    (rel kind name visibility library : string) (hasTestdata : bool)
    (target : Target) :
  fst (generateRule g rel kind name visibility library hasTestdata target)
  = newRule kind []
      ([mkKeyvalue "name" (VString name)]
       ++ (if PlatformStrings_IsEmpty (Sources target) then []
           else [mkKeyvalue "srcs" (VPlatform (Sources target))])
       ++ (if PlatformStrings_IsEmpty (CLinkOpts target) then []
           else [mkKeyvalue "clinkopts" (VPlatform (CLinkOpts target))])
       ++ (if PlatformStrings_IsEmpty (COpts target) then []
           else [mkKeyvalue "copts" (VPlatform (COpts target))])
       ++ (if hasTestdata then [mkKeyvalue "data" (VGlob ["testdata/**"])]
           else [])
       ++ (if String.eqb library "" then []
           else [mkKeyvalue "library" (VString (":" ++ library)%string)])
       ++ (if String.eqb visibility "" then []
           else [mkKeyvalue "visibility" (VStrings [visibility])])
       ++ (if PlatformStrings_IsEmpty (Imports target) then []
           else [mkKeyvalue "deps"
                   (VPlatform (fst (dependencies g (Imports target) rel)))]))%list.
Proof.
  unfold generateRule, bind, ret.
  destruct (dependencies g (Imports target) rel) as [deps logged].
  destruct (PlatformStrings_IsEmpty (Sources target));
    destruct (PlatformStrings_IsEmpty (CLinkOpts target));
    destruct (PlatformStrings_IsEmpty (COpts target));
    destruct hasTestdata;
    destruct (String.eqb library "");
    destruct (String.eqb visibility "");
    destruct (PlatformStrings_IsEmpty (Imports target));
    reflexivity.
Qed.

Lemma generateRule_shape (g : generator)
    (rel kind name visibility library : string) (hasTestdata : bool)
    (target : Target) :
  let r0 := fst (generateRule g rel kind name visibility library hasTestdata
                              target) in
  Kind r0 = kind
  /\ Args r0 = []
  /\ AttrKeys r0
     = "name" :: List.filter (fun k => hasString k (AttrKeys r0)) attrPriority
  /\ Attr "name" (Attrs r0) = Some (VString name)
  /\ Attr "visibility" (Attrs r0)
     = if String.eqb visibility "" then None
       else Some (VStrings [visibility]).
Proof.
  cbv zeta. rewrite generateRule_fst.
  generalize (VPlatform (fst (dependencies g (Imports target) rel))).
  generalize (VPlatform (Sources target)), (VPlatform (CLinkOpts target)),
    (VPlatform (COpts target)).
  generalize (PlatformStrings_IsEmpty (Sources target)),
    (PlatformStrings_IsEmpty (CLinkOpts target)),
    (PlatformStrings_IsEmpty (COpts target)),
    (PlatformStrings_IsEmpty (Imports target)),
    (String.eqb library ""), (String.eqb visibility "").
  intros b1 b2 b3 b7 b5 b6 v1 v2 v3 v7.
  destruct b1, b2, b3, hasTestdata, b5, b6, b7; repeat split; reflexivity.
Qed.

(** Where a rule of a package comes from. *)
Inductive emitted (g : generator) (pkg : Package) : Rule -> Prop :=
| emitted_prefix :
    Rel pkg = "" ->
    emitted g pkg (newRule "go_prefix" [GoPrefix (c g)] [])
| emitted_cgo :
    emitted g pkg
      (fst (generateRule g (Rel pkg) "cgo_library" defaultCgoLibName
                         "//visibility:private" "" false (CgoLibrary pkg)))
| emitted_filegroup (r0 : Rule) :
    filegroup g pkg = Some r0 -> emitted g pkg r0
| emitted_rule (kind name visibility library : string) (hasTestdata : bool)
    (target : Target) :
    In kind ["go_library"; "go_binary"; "go_test"] ->
    emitted g pkg
      (fst (generateRule g (Rel pkg) kind name visibility library hasTestdata
                         target)).

Lemma generateCgoLib_emitted (g : generator) (pkg : Package) (r0 : Rule) :
  snd (fst (generateCgoLib g pkg)) = Some r0 -> emitted g pkg r0.
Proof.
  unfold generateCgoLib.
  destruct (negb (Target_HasGo (CgoLibrary pkg))); [discriminate|].
  unfold bind, ret.
  destruct (generateRule g (Rel pkg) "cgo_library" defaultCgoLibName
              "//visibility:private" "" false (CgoLibrary pkg))
    as [rule l] eqn:E.
  simpl. intros [= <-]. change rule with (fst (rule, l)). rewrite <- E.
  constructor.
Qed.

Lemma generateLib_emitted (g : generator) (pkg : Package) (cgoName : string)
    (r0 : Rule) :
  snd (fst (generateLib g pkg cgoName)) = Some r0 -> emitted g pkg r0.
Proof.
  unfold generateLib.
  destruct (negb (Target_HasGo (Library pkg)) && String.eqb cgoName "");
    [discriminate|].
  unfold bind, ret.
  match goal with
  | |- context [generateRule ?a ?b ?k ?n ?v ?l ?t ?x] =>
      pose proof (emitted_rule g pkg k n v l t x) as Hem;
      destruct (generateRule a b k n v l t x) as [rule lg]
  end.
  simpl. intros [= <-]. apply Hem. simpl; tauto.
Qed.

Lemma generateBin_emitted (g : generator) (pkg : Package) (library : string)
    (r0 : Rule) :
  fst (generateBin g pkg library) = Some r0 -> emitted g pkg r0.
Proof.
  unfold generateBin.
  destruct (negb (Package_IsCommand pkg)
            || PlatformStrings_IsEmpty (Sources (Binary pkg))
               && String.eqb library ""); [discriminate|].
  unfold bind, ret.
  match goal with
  | |- context [generateRule ?a ?b ?k ?n ?v ?l ?t ?x] =>
      pose proof (emitted_rule g pkg k n v l t x) as Hem;
      destruct (generateRule a b k n v l t x) as [rule lg]
  end.
  simpl. intros [= <-]. apply Hem. simpl; tauto.
Qed.

Lemma generateTest_emitted (g : generator) (pkg : Package) (library : string)
    (r0 : Rule) :
  fst (generateTest g pkg library) = Some r0 -> emitted g pkg r0.
Proof.
  unfold generateTest.
  destruct (negb (Target_HasGo (Test pkg))); [discriminate|].
  unfold bind, ret.
  match goal with
  | |- context [generateRule ?a ?b ?k ?n ?v ?l ?t ?x] =>
      pose proof (emitted_rule g pkg k n v l t x) as Hem;
      destruct (generateRule a b k n v l t x) as [rule lg]
  end.
  simpl. intros [= <-]. apply Hem. simpl; tauto.
Qed.

Lemma generateXTest_emitted (g : generator) (pkg : Package) (library : string)
    (r0 : Rule) :
  fst (generateXTest g pkg library) = Some r0 -> emitted g pkg r0.
Proof.
  unfold generateXTest.
  destruct (negb (Target_HasGo (XTest pkg))); [discriminate|].
  unfold bind, ret.
  match goal with
  | |- context [generateRule ?a ?b ?k ?n ?v ?l ?t ?x] =>
      pose proof (emitted_rule g pkg k n v l t x) as Hem;
      destruct (generateRule a b k n v l t x) as [rule lg]
  end.
  simpl. intros [= <-]. apply Hem. simpl; tauto.
Qed.

Lemma Forall_appendRule (P : Rule -> Prop) (rules : list Rule)
    (o : option Rule) :
  Forall P rules -> (forall r0, o = Some r0 -> P r0) ->
  Forall P (appendRule rules o).
Proof.
  intros Hrules Ho. destruct o as [r0|]; simpl; [|assumption].
  apply Forall_app. split; [assumption|]. constructor; auto.
Qed.

Lemma generateRules_emitted (g : generator) (pkg : Package) :
  Forall (emitted g pkg) (fst (generateRules g pkg)).
Proof.
  unfold generateRules, bind, ret.
  pose proof (generateCgoLib_emitted g pkg) as Hcgo.
  destruct (generateCgoLib g pkg) as [[cgoLibrary o1] l1].
  pose proof (generateLib_emitted g pkg cgoLibrary) as Hlib.
  destruct (generateLib g pkg cgoLibrary) as [[library o2] l2].
  pose proof (generateBin_emitted g pkg library) as Hbin.
  destruct (generateBin g pkg library) as [o3 l3].
  pose proof (generateTest_emitted g pkg library) as Htest.
  destruct (generateTest g pkg library) as [o5 l5].
  pose proof (generateXTest_emitted g pkg library) as Hxtest.
  destruct (generateXTest g pkg library) as [o6 l6].
  simpl in *.
  repeat apply Forall_appendRule; auto.
  - destruct (String.eqb_spec (Rel pkg) ""); simpl; constructor.
    + now constructor.
    + constructor.
  - intros r0 Hr0. now apply emitted_filegroup.
Qed.

End Facts.
End GeneratorBFacts.

Module GeneratorAFacts.
Import GeneratorA.
Section Facts.
Context `{Env}.

(** The rule of [generateRule], one optional attribute after the other. *)
Lemma generateRule_fst_bf (g : generator)
    (bfPath rel kind name visibility library : string) (hasTestdata : bool)
    (target : Target) :
  let bfRel := relPath bfPath (path_Join (RepoRoot (c g)) rel) in
  fst (generateRule g bfPath rel kind name visibility library hasTestdata
                    target)
  = newRule kind []
      ([mkKeyvalue "name"
          (VString (if negb (String.eqb bfRel "") then bfRel else name))]
       ++ (if PlatformStrings_IsEmpty (Sources target) then []
           else [mkKeyvalue "srcs"
                   (VPlatform
                      (if negb (String.eqb bfRel "")
                       then fst (PlatformStrings_Map
                                   (fun s : string =>
                                      @Ok string (bfRel ++ "/" ++ s)%string)
                                   (Sources target))
                       else Sources target))])
       ++ (if PlatformStrings_IsEmpty (CLinkOpts target) then []
           else [mkKeyvalue "clinkopts" (VPlatform (CLinkOpts target))])
       ++ (if PlatformStrings_IsEmpty (COpts target) then []
           else [mkKeyvalue "copts" (VPlatform (COpts target))])
       ++ (if hasTestdata
           then [mkKeyvalue "data"
                   (if negb (String.eqb bfRel "")
                    then VGlob [(bfRel ++ "/testdata/**")%string]
                    else VGlob ["testdata/**"])]
           else [])
       ++ (if String.eqb library "" then []
           else [mkKeyvalue "library" (VString (":" ++ library)%string)])
       ++ (if String.eqb visibility "" then []
           else [mkKeyvalue "visibility" (VStrings [visibility])])
       ++ (if PlatformStrings_IsEmpty (Imports target) then []
           else [mkKeyvalue "deps"
                   (VPlatform (fst (dependencies g (Imports target) rel)))]))%list.
Proof.
  unfold generateRule, bind, ret. cbv zeta.
  generalize (relPath bfPath (path_Join (RepoRoot (c g)) rel)). intros bfRel.
  destruct (dependencies g (Imports target) rel) as [deps logged].
  destruct (PlatformStrings_IsEmpty (Sources target));
    destruct (PlatformStrings_IsEmpty (CLinkOpts target));
    destruct (PlatformStrings_IsEmpty (COpts target));
    destruct hasTestdata;
    destruct (String.eqb library "");
    destruct (String.eqb visibility "");
    destruct (PlatformStrings_IsEmpty (Imports target));
    reflexivity.
Qed.

Lemma generateRule_shape_bf (g : generator)
    (bfPath rel kind name visibility library : string) (hasTestdata : bool)
    (target : Target) :
  let r0 := fst (generateRule g bfPath rel kind name visibility library
                              hasTestdata target) in
  let bfRel := relPath bfPath (path_Join (RepoRoot (c g)) rel) in
  Kind r0 = kind
  /\ Args r0 = []
  /\ AttrKeys r0
     = "name" :: List.filter (fun k => hasString k (AttrKeys r0)) attrPriority
  /\ Attr "name" (Attrs r0)
     = Some (VString (if String.eqb bfRel "" then name else bfRel))
  /\ Attr "visibility" (Attrs r0)
     = if String.eqb visibility "" then None
       else Some (VStrings [visibility]).
Proof.
  cbv zeta. rewrite generateRule_fst_bf. cbv zeta.
  generalize (relPath bfPath (path_Join (RepoRoot (c g)) rel)). intros bfRel.
  generalize (VPlatform (fst (dependencies g (Imports target) rel))).
  generalize (VPlatform
                (if negb (String.eqb bfRel "")
                 then fst (PlatformStrings_Map
                             (fun s : string =>
                                @Ok string (bfRel ++ "/" ++ s)%string)
                             (Sources target))
                 else Sources target)),
    (VPlatform (CLinkOpts target)), (VPlatform (COpts target)),
    (if negb (String.eqb bfRel "")
     then VGlob [(bfRel ++ "/testdata/**")%string]
     else VGlob ["testdata/**"]).
  generalize (PlatformStrings_IsEmpty (Sources target)),
    (PlatformStrings_IsEmpty (CLinkOpts target)),
    (PlatformStrings_IsEmpty (COpts target)),
    (PlatformStrings_IsEmpty (Imports target)),
    (String.eqb library ""), (String.eqb visibility "").
  intros b1 b2 b3 b7 b5 b6 v1 v2 v3 v4 v7.
  destruct (String.eqb bfRel "");
    destruct b1, b2, b3, hasTestdata, b5, b6, b7; repeat split; reflexivity.
Qed.

(** Where a rule written for the build file at [bfPath] comes from. *)
Inductive emitted_bf (g : generator) (bfPath : string) (pkg : Package)
  : Rule -> Prop :=
| emitted_prefix_bf :
    Rel pkg = "" ->
    emitted_bf g bfPath pkg (newRule "go_prefix" [GoPrefix (c g)] [])
| emitted_cgo_bf :
    emitted_bf g bfPath pkg
      (fst (generateRule g bfPath (Rel pkg) "cgo_library" defaultCgoLibName
                         "//visibility:private" "" false (CgoLibrary pkg)))
| emitted_filegroup_bf (r0 : Rule) :
    filegroup g bfPath pkg = Some r0 -> emitted_bf g bfPath pkg r0
| emitted_rule_bf (kind name visibility library : string) (hasTestdata : bool)
    (target : Target) :
    In kind ["go_library"; "go_binary"; "go_test"] ->
    emitted_bf g bfPath pkg
      (fst (generateRule g bfPath (Rel pkg) kind name visibility library
                         hasTestdata target)).

(** Reads a rule off the [generateRule] call of the goal. *)
Ltac from_generateRule g bfPath pkg :=
  unfold bind, ret;
  match goal with
  | |- context [generateRule ?a ?p ?b ?k ?n ?v ?l ?t ?x] =>
      let Hem := fresh "Hem" in
      let rule := fresh "rule" in
      let lg := fresh "lg" in
      pose proof (emitted_rule_bf g bfPath pkg k n v l t x) as Hem;
      destruct (generateRule a p b k n v l t x) as [rule lg];
      simpl; intros [= <-]; apply Hem; simpl; tauto
  end.

Lemma generateCgoLib_emitted_bf (g : generator) (bfPath : string)
    (pkg : Package) (r0 : Rule) :
  snd (fst (generateCgoLib g bfPath pkg)) = Some r0 -> emitted_bf g bfPath pkg r0.
Proof.
  unfold generateCgoLib.
  destruct (negb (Target_HasGo (CgoLibrary pkg))); [discriminate|].
  unfold bind, ret.
  destruct (generateRule g bfPath (Rel pkg) "cgo_library" defaultCgoLibName
              "//visibility:private" "" false (CgoLibrary pkg))
    as [rule l] eqn:E.
  simpl. intros [= <-]. change rule with (fst (rule, l)). rewrite <- E.
  constructor.
Qed.

Lemma generateLib_emitted_bf (g : generator) (bfPath : string) (pkg : Package)
    (cgoName : string) (r0 : Rule) :
  snd (fst (generateLib g bfPath pkg cgoName)) = Some r0 ->
  emitted_bf g bfPath pkg r0.
Proof.
  unfold generateLib.
  destruct (negb (Target_HasGo (Library pkg)) && String.eqb cgoName "");
    [discriminate|].
  from_generateRule g bfPath pkg.
Qed.

Lemma generateBin_emitted_bf (g : generator) (bfPath : string) (pkg : Package)
    (library : string) (r0 : Rule) :
  fst (generateBin g bfPath pkg library) = Some r0 -> emitted_bf g bfPath pkg r0.
Proof.
  unfold generateBin.
  destruct (negb (Package_IsCommand pkg)
            || PlatformStrings_IsEmpty (Sources (Binary pkg))
               && String.eqb library ""); [discriminate|].
  from_generateRule g bfPath pkg.
Qed.

Lemma generateTest_emitted_bf (g : generator) (bfPath : string) (pkg : Package)
    (library : string) (r0 : Rule) :
  fst (generateTest g bfPath pkg library) = Some r0 -> emitted_bf g bfPath pkg r0.
Proof.
  unfold generateTest.
  destruct (negb (Target_HasGo (Test pkg))); [discriminate|].
  from_generateRule g bfPath pkg.
Qed.

Lemma generateXTest_emitted_bf (g : generator) (bfPath : string) (pkg : Package)
    (library : string) (r0 : Rule) :
  fst (generateXTest g bfPath pkg library) = Some r0 ->
  emitted_bf g bfPath pkg r0.
Proof.
  unfold generateXTest.
  destruct (negb (Target_HasGo (XTest pkg))); [discriminate|].
  from_generateRule g bfPath pkg.
Qed.

Lemma Forall_appendRule_bf (P : Rule -> Prop) (rules : list Rule)
    (o : option Rule) :
  Forall P rules -> (forall r0, o = Some r0 -> P r0) ->
  Forall P (appendRule rules o).
Proof.
  intros Hrules Ho. destruct o as [r0|]; simpl; [|assumption].
  apply Forall_app. split; [assumption|]. constructor; auto.
Qed.

Lemma generateRules_emitted_bf (g : generator) (bfPath : string)
    (pkg : Package) :
  Forall (emitted_bf g bfPath pkg) (fst (generateRules g bfPath pkg)).
Proof.
  unfold generateRules, bind, ret.
  pose proof (generateCgoLib_emitted_bf g bfPath pkg) as Hcgo.
  destruct (generateCgoLib g bfPath pkg) as [[cgoLibrary o1] l1].
  pose proof (generateLib_emitted_bf g bfPath pkg cgoLibrary) as Hlib.
  destruct (generateLib g bfPath pkg cgoLibrary) as [[library o2] l2].
  pose proof (generateBin_emitted_bf g bfPath pkg library) as Hbin.
  destruct (generateBin g bfPath pkg library) as [o3 l3].
  pose proof (generateTest_emitted_bf g bfPath pkg library) as Htest.
  destruct (generateTest g bfPath pkg library) as [o5 l5].
  pose proof (generateXTest_emitted_bf g bfPath pkg library) as Hxtest.
  destruct (generateXTest g bfPath pkg library) as [o6 l6].
  simpl in *.
  repeat apply Forall_appendRule_bf; auto.
  - destruct (String.eqb_spec (Rel pkg) ""); simpl; constructor.
    + now constructor.
    + constructor.
  - intros r0 Hr0. now apply emitted_filegroup_bf.
Qed.

Lemma generateVendorRules_emitted (g : generator) (bfPath : string)
    (pkg : Package) :
  Forall (emitted_bf g bfPath pkg) (fst (generateVendorRules g bfPath pkg)).
Proof.
  unfold generateVendorRules, bind, ret.
  pose proof (generateCgoLib_emitted_bf g bfPath pkg) as Hcgo.
  destruct (generateCgoLib g bfPath pkg) as [[cgoLibrary o1] l1].
  pose proof (generateLib_emitted_bf g bfPath pkg cgoLibrary) as Hlib.
  destruct (generateLib g bfPath pkg cgoLibrary) as [[library o2] l2].
  simpl in *.
  repeat apply Forall_appendRule_bf; auto.
  intros r0 Hr0. now apply emitted_filegroup_bf.
Qed.

End Facts.
End GeneratorAFacts.

(** ** Attribute order and visibility of the emitted rules *)

Lemma emitted_classified `{Env} (g : generator) (pkg : Package) (r0 : Rule) :
  GeneratorBFacts.emitted g pkg r0 ->
  (Kind r0 = "go_prefix" /\ Args r0 = [GoPrefix (c g)] /\ Attrs r0 = [])
  \/ (Kind r0 <> "go_prefix" /\ nameFirstInOrder r0
      /\ (Kind r0 = "cgo_library" ->
          Attr "visibility" (Attrs r0)
          = Some (VStrings ["//visibility:private"]))).
Proof.
  intros [Hrel| |r1 Hfg|kind name visibility library hasTestdata target Hkind].
  - left. repeat split.
  - right.
    destruct (GeneratorBFacts.generateRule_shape g (Rel pkg) "cgo_library"
                defaultCgoLibName "//visibility:private" "" false
                (CgoLibrary pkg)) as (Hk & _ & Hkeys & _ & Hvis).
    split; [rewrite Hk; discriminate|]. split; [eexists; exact Hkeys|].
    intros _. exact Hvis.
  - right. unfold GeneratorB.filegroup in Hfg.
    destruct (negb (HasPbGo pkg) || Nat.eqb (List.length (Protos pkg)) 0);
      [discriminate|].
    injection Hfg as <-. split; [discriminate|]. split; [|discriminate].
    exists (fun k => hasString k ["srcs"; "visibility"]). reflexivity.
  - right.
    destruct (GeneratorBFacts.generateRule_shape g (Rel pkg) kind name
                visibility library hasTestdata target)
      as (Hk & _ & Hkeys & _ & _).
    rewrite Hk.
    assert (kind <> "go_prefix" /\ kind <> "cgo_library") as [Hp Hc].
    { simpl in Hkind. split; intros ->; intuition discriminate. }
    split; [assumption|]. split; [eexists; exact Hkeys|].
    intros Hcgo. contradiction.
Qed.

Lemma emitted_bf_classified `{Env} (g : generator) (bfPath : string)
    (pkg : Package) (r0 : Rule) :
  GeneratorAFacts.emitted_bf g bfPath pkg r0 ->
  (Kind r0 = "go_prefix" /\ Args r0 = [GoPrefix (c g)] /\ Attrs r0 = [])
  \/ (Kind r0 <> "go_prefix" /\ nameFirstInOrder r0
      /\ (Kind r0 = "cgo_library" ->
          Attr "visibility" (Attrs r0)
          = Some (VStrings ["//visibility:private"]))).
Proof.
  intros [Hrel| |r1 Hfg|kind name visibility library hasTestdata target Hkind].
  - left. repeat split.
  - right.
    destruct (GeneratorAFacts.generateRule_shape_bf g bfPath (Rel pkg)
                "cgo_library" defaultCgoLibName "//visibility:private" ""
                false (CgoLibrary pkg)) as (Hk & _ & Hkeys & _ & Hvis).
    split; [rewrite Hk; discriminate|]. split; [eexists; exact Hkeys|].
    intros _. exact Hvis.
  - right. unfold GeneratorA.filegroup in Hfg.
    destruct (negb (HasPbGo pkg) || Nat.eqb (List.length (Protos pkg)) 0);
      [discriminate|].
    destruct (negb (String.eqb (GeneratorA.relPath bfPath (Dir pkg)) ""));
      injection Hfg as <-; (split; [discriminate|]); (split; [|discriminate]);
      exists (fun k => hasString k ["srcs"; "visibility"]); reflexivity.
  - right.
    destruct (GeneratorAFacts.generateRule_shape_bf g bfPath (Rel pkg) kind
                name visibility library hasTestdata target)
      as (Hk & _ & Hkeys & _ & _).
    rewrite Hk.
    assert (kind <> "go_prefix" /\ kind <> "cgo_library") as [Hp Hc].
    { simpl in Hkind. split; intros ->; intuition discriminate. }
    split; [assumption|]. split; [eexists; exact Hkeys|].
    intros Hcgo. contradiction.
Qed.

Lemma generates_classified `{Env} (g : generator) (bfPath : string)
    (pkg : Package) (r0 : Rule) :
  generates g bfPath pkg r0 ->
  (Kind r0 = "go_prefix" /\ Args r0 = [GoPrefix (c g)] /\ Attrs r0 = [])
  \/ (Kind r0 <> "go_prefix" /\ nameFirstInOrder r0
      /\ (Kind r0 = "cgo_library" ->
          Attr "visibility" (Attrs r0)
          = Some (VStrings ["//visibility:private"]))).
Proof.
  intros [Hin|[Hin|Hin]].
  - apply (emitted_classified g pkg).
    pose proof (GeneratorBFacts.generateRules_emitted g pkg) as Hall.
    rewrite List.Forall_forall in Hall. now apply Hall.
  - apply (emitted_bf_classified g bfPath pkg).
    pose proof (GeneratorAFacts.generateRules_emitted_bf g bfPath pkg) as Hall.
    rewrite List.Forall_forall in Hall. now apply Hall.
  - apply (emitted_bf_classified g bfPath pkg).
    pose proof (GeneratorAFacts.generateVendorRules_emitted g bfPath pkg)
      as Hall.
    rewrite List.Forall_forall in Hall. now apply Hall.
Qed.

(** The module-prefix declaration of the root package has one positional
    argument and no attribute, so no name comes first in it. *)
Lemma generateRules_go_prefix_unnamed :
  @generates Fixtures.env Fixtures.externalGenerator "/repo"
             Fixtures.rootPackage
             (newRule "go_prefix" ["example.com/repo"] [])
  /\ AttrKeys (newRule "go_prefix" ["example.com/repo"] []) = []
  /\ ~ nameFirstInOrder (newRule "go_prefix" ["example.com/repo"] []).
Proof.
  split; [left; vm_compute; tauto|]. split; [reflexivity|].
  intros [present Hkeys]. discriminate Hkeys.
Qed.

(** C9, as the code has it: every rule of a package other than the go_prefix
    declaration has name as its first attribute, followed by those of srcs,
    clinkopts, copts, data, library, visibility, deps that are present, in
    this order, whatever the package holds; the go_prefix declaration has
    its one positional argument and no attribute. *)
Theorem generateRules_attribute_order `{Env} (g : generator)
    (bfPath : string) (pkg : Package) (r0 : Rule) :
  generates g bfPath pkg r0 ->
  (Kind r0 = "go_prefix" /\ Args r0 = [GoPrefix (c g)] /\ Attrs r0 = [])
  \/ (Kind r0 <> "go_prefix" /\ nameFirstInOrder r0).
Proof.
  intros Hgen.
  destruct (generates_classified g bfPath pkg r0 Hgen)
    as [Hprefix|(Hkind & Horder & _)]; [left | right]; auto.
Qed.

Lemma generateRules_attribute_order_witness :
  let r0 :=
    newRule "go_library" []
      [ mkKeyvalue "name" (VString "go_default_library");
        mkKeyvalue "srcs" (VPlatform (Fixtures.strings ["c.go"]));
        mkKeyvalue "library" (VString ":cgo_default_library");
        mkKeyvalue "visibility" (VStrings ["//a:__subpackages__"]);
        mkKeyvalue "deps"
          (VPlatform (Fixtures.strings ["@org_golang_x_net//:go_default_library"])) ]
  in
  @generates Fixtures.env Fixtures.externalGenerator "/repo/a/internal/c"
             Fixtures.subPackage r0
  /\ ((Kind r0 = "go_prefix" /\ Args r0 = ["example.com/repo"]
       /\ Attrs r0 = [])
      \/ (Kind r0 <> "go_prefix" /\ nameFirstInOrder r0)).
Proof.
  intros r0.
  assert (@generates Fixtures.env Fixtures.externalGenerator
            "/repo/a/internal/c" Fixtures.subPackage r0) as Hgen
    by (left; vm_compute; tauto).
  split; [exact Hgen|].
  exact (@generateRules_attribute_order Fixtures.env
           Fixtures.externalGenerator "/repo/a/internal/c"
           Fixtures.subPackage r0 Hgen).
Defined.

(** C10: a cgo_library rule of a package has the visibility
    //visibility:private, whether or not the package is a command or lies
    below an internal directory. *)
Theorem cgo_library_private `{Env} (g : generator) (bfPath : string)
    (pkg : Package) (r0 : Rule) :
  generates g bfPath pkg r0 ->
  Kind r0 = "cgo_library" ->
  Attr "visibility" (Attrs r0) = Some (VStrings ["//visibility:private"]).
Proof.
  intros Hgen Hkind.
  destruct (generates_classified g bfPath pkg r0 Hgen)
    as [(Hprefix & _)|(_ & _ & Hvis)]; [congruence | auto].
Qed.

Lemma cgo_library_private_witness :
  let r0 :=
    newRule "cgo_library" []
      [ mkKeyvalue "name" (VString "cgo_default_library");
        mkKeyvalue "srcs" (VPlatform (Fixtures.strings ["cgo.go"]));
        mkKeyvalue "visibility" (VStrings ["//visibility:private"]) ]
  in
  @generates Fixtures.env Fixtures.externalGenerator "/repo/a/internal/c"
             Fixtures.subPackage r0
  /\ Kind r0 = "cgo_library"
  /\ Attr "visibility" (Attrs r0) = Some (VStrings ["//visibility:private"]).
Proof.
  intros r0.
  assert (@generates Fixtures.env Fixtures.externalGenerator
            "/repo/a/internal/c" Fixtures.subPackage r0) as Hgen
    by (left; vm_compute; tauto).
  split; [exact Hgen|]. split; [reflexivity|].
  exact (@cgo_library_private Fixtures.env Fixtures.externalGenerator
           "/repo/a/internal/c" Fixtures.subPackage r0 Hgen eq_refl).
Defined.

(** The cgo_library rule is there whenever the cgo target has Go sources. *)
Lemma generateCgoLib_emits `{Env} (g : generator) (pkg : Package) :
  Target_HasGo (CgoLibrary pkg) = true ->
  exists r0,
    fst (GeneratorB.generateCgoLib g pkg) = (defaultCgoLibName, Some r0)
    /\ Kind r0 = "cgo_library"
    /\ Attr "visibility" (Attrs r0)
       = Some (VStrings ["//visibility:private"]).
Proof.
  intros Hgo. unfold GeneratorB.generateCgoLib. rewrite Hgo. simpl.
  unfold bind, ret.
  pose proof (GeneratorBFacts.generateRule_shape g (Rel pkg) "cgo_library"
                defaultCgoLibName "//visibility:private" "" false
                (CgoLibrary pkg)) as (Hk & _ & _ & _ & Hvis).
  destruct (GeneratorB.generateRule g (Rel pkg) "cgo_library"
              defaultCgoLibName "//visibility:private" "" false
              (CgoLibrary pkg)) as [rule l].
  exists rule. simpl in *. auto.
Qed.

(** ** Resolving the imports of a target *)

Lemma mapSlice_In (f : string -> result string) (ss : list string) :
  (forall x, In x (fst (mapSlice f ss)) <-> exists s, In s ss /\ f s = Ok x)
  /\ (forall e, In e (snd (mapSlice f ss))
                <-> exists s, In s ss /\ f s = Err e).
Proof.
  induction ss as [|s ss [IHok IHerr]]; simpl.
  - split; intros x; split; [intros [] | intros [s [[] _]]
                            | intros [] | intros [s [[] _]]].
  - destruct (mapSlice f ss) as [rs errors]. simpl in *.
    destruct (f s) as [r0|err] eqn:Hf; simpl; split; intros x.
    + rewrite IHok. split.
      * intros [<-|[s' [Hin Hs']]]; eauto.
      * intros [s' [[<-|Hin] Hs']]; [left; congruence | right; eauto].
    + rewrite IHerr. split.
      * intros [s' [Hin Hs']]; eauto.
      * intros [s' [[<-|Hin] Hs']]; [congruence | eauto].
    + rewrite IHok. split.
      * intros [s' [Hin Hs']]; eauto.
      * intros [s' [[<-|Hin] Hs']]; [congruence | eauto].
    + rewrite IHerr. split.
      * intros [<-|[s' [Hin Hs']]]; eauto.
      * intros [s' [[<-|Hin] Hs']]; [left; congruence | right; eauto].
Qed.

Lemma mapPlatforms_In (f : string -> result string)
    (ps : list (string * list string)) :
  (forall x, In x (concat (map snd (fst (mapPlatforms f ps))))
             <-> exists s, In s (concat (map snd ps)) /\ f s = Ok x)
  /\ (forall e, In e (snd (mapPlatforms f ps))
                <-> exists s, In s (concat (map snd ps)) /\ f s = Err e).
Proof.
  induction ps as [|[platform ss] ps [IHok IHerr]]; simpl.
  - split; intros x; split; [intros [] | intros [s [[] _]]
                            | intros [] | intros [s [[] _]]].
  - destruct (mapSlice_In f ss) as [Hok Herr].
    destruct (mapSlice f ss) as [rs errors].
    destruct (mapPlatforms f ps) as [rest errors']. simpl in *.
    split; intros x; rewrite !in_app_iff.
    + rewrite Hok, IHok. split.
      * intros [[s [Hin Hs]]|[s [Hin Hs]]]; exists s;
          rewrite in_app_iff; auto.
      * intros [s [Hin Hs]]. apply in_app_iff in Hin as [Hin|Hin]; eauto.
    + rewrite Herr, IHerr. split.
      * intros [[s [Hin Hs]]|[s [Hin Hs]]]; exists s;
          rewrite in_app_iff; auto.
      * intros [s [Hin Hs]]. apply in_app_iff in Hin as [Hin|Hin]; eauto.
Qed.

Lemma PlatformStrings_Map_In (f : string -> result string)
    (ps : PlatformStrings) :
  (forall x, In x (allStrings (fst (PlatformStrings_Map f ps)))
             <-> exists s, In s (allStrings ps) /\ f s = Ok x)
  /\ (forall e, In e (snd (PlatformStrings_Map f ps))
                <-> exists s, In s (allStrings ps) /\ f s = Err e).
Proof.
  unfold PlatformStrings_Map, allStrings.
  destruct (mapSlice_In f (Generic ps)) as [Hok Herr].
  destruct (mapPlatforms_In f (Platform ps)) as [Hok' Herr'].
  destruct (mapSlice f (Generic ps)) as [generic errors].
  destruct (mapPlatforms f (Platform ps)) as [platform errors'].
  simpl in *. split; intros x; rewrite !in_app_iff.
  - rewrite Hok, Hok'. split.
    + intros [[s [Hin Hs]]|[s [Hin Hs]]]; exists s; rewrite in_app_iff; auto.
    + intros [s [Hin Hs]]. apply in_app_iff in Hin as [Hin|Hin]; eauto.
  - rewrite Herr, Herr'. split.
    + intros [[s [Hin Hs]]|[s [Hin Hs]]]; exists s; rewrite in_app_iff; auto.
    + intros [s [Hin Hs]]. apply in_app_iff in Hin as [Hin|Hin]; eauto.
Qed.

Lemma uniq_In (l : list string) (x : string) : In x (uniq l) <-> In x l.
Proof.
  induction l as [|y l IH]; simpl; [tauto|].
  rewrite filter_In, IH. destruct (String.eqb_spec y x) as [->|Hne].
  - tauto.
  - simpl. tauto.
Qed.

Lemma Clean_In (ps : PlatformStrings) (x : string) :
  In x (allStrings (PlatformStrings_Clean ps)) <-> In x (allStrings ps).
Proof.
  unfold PlatformStrings_Clean, allStrings; simpl.
  rewrite !in_app_iff, uniq_In.
  assert (forall l : list (string * list string),
            In x (concat (map snd
                    (map (fun p =>
                            (fst p,
                             List.filter
                               (fun s => negb (hasString s (uniq (Generic ps))))
                               (uniq (snd p)))) l)))
            <-> In x (concat (map snd l)) /\ ~ In x (Generic ps)) as Hplat.
  { induction l as [|p l IH]; simpl; [tauto|].
    rewrite !in_app_iff, IH, filter_In, uniq_In, negb_true_iff.
    rewrite <- not_true_iff_false, hasString_In, uniq_In. tauto. }
  rewrite Hplat.
  destruct (in_dec String.string_dec x (Generic ps)); tauto.
Qed.

Lemma logAll_logged (errors : list string) : logAll errors = (tt, errors).
Proof.
  induction errors as [|err errors IH]; [reflexivity|].
  simpl. unfold bind, log_Print. now rewrite IH.
Qed.

Lemma dependencies_eq `{Env} (g : generator) (imports : PlatformStrings)
    (dir : string) :
  let resolve := fun imp =>
    match r g imp dir with
    | Err err => Err (resolveError dir imp err)
    | Ok l => Ok (label_String l)
    end in
  dependencies g imports dir
  = (PlatformStrings_Clean (fst (PlatformStrings_Map resolve imports)),
     snd (PlatformStrings_Map resolve imports)).
Proof.
  intros resolve. unfold dependencies. fold resolve.
  destruct (PlatformStrings_Map resolve imports) as [deps errors].
  unfold bind, ret. rewrite logAll_logged. simpl.
  now rewrite app_nil_r.
Qed.

(** C8: [dependencies] always returns.  Each import that resolves has its
    label among the dependencies; each import that does not resolve has one
    line in the log, which reads: in dir, the quoted directory, could not
    resolve import path, the quoted import path, and the resolver's error;
    nothing else is dropped, and nothing else is logged. *)
Theorem dependencies_partial_failure `{Env} (g : generator)
    (imports : PlatformStrings) (dir : string) :
  let deps := fst (dependencies g imports dir) in
  let logged := snd (dependencies g imports dir) in
  (forall imp l, In imp (allStrings imports) -> r g imp dir = Ok l ->
                 In (label_String l) (allStrings deps))
  /\ (forall imp err, In imp (allStrings imports) -> r g imp dir = Err err ->
        In ("in dir " ++ strconv_Quote dir
            ++ ", could not resolve import path " ++ strconv_Quote imp
            ++ ": " ++ err) logged)
  /\ (forall d, In d (allStrings deps) ->
                exists imp l, In imp (allStrings imports)
                              /\ r g imp dir = Ok l /\ d = label_String l)
  /\ (forall line, In line logged ->
        exists imp err,
          In imp (allStrings imports)
          /\ r g imp dir = Err err
          /\ line = "in dir " ++ strconv_Quote dir
                    ++ ", could not resolve import path " ++ strconv_Quote imp
                    ++ ": " ++ err).
Proof.
  rewrite dependencies_eq. simpl.
  set (resolve := fun imp =>
         match r g imp dir with
         | Err err => Err (resolveError dir imp err)
         | Ok l => Ok (label_String l)
         end).
  destruct (PlatformStrings_Map_In resolve imports) as [Hok Herr].
  repeat split.
  - intros imp l Hin Hres. apply Clean_In, Hok. exists imp.
    split; [assumption|]. unfold resolve. now rewrite Hres.
  - intros imp err Hin Hres. apply Herr. exists imp.
    split; [assumption|]. unfold resolve. rewrite Hres. reflexivity.
  - intros d Hd. apply Clean_In, Hok in Hd as [imp [Hin Hres]].
    unfold resolve in Hres. destruct (r g imp dir) as [l|err] eqn:Hr;
      [|discriminate].
    exists imp, l. injection Hres as <-. auto.
  - intros line Hline. apply Herr in Hline as [imp [Hin Hres]].
    unfold resolve in Hres. destruct (r g imp dir) as [l|err] eqn:Hr;
      [discriminate|].
    exists imp, err. injection Hres as <-. auto.
Qed.

(** The imports of the library of [Fixtures.subPackage]: one is known to the
    external resolver, the other is not. *)
Example dependencies_one_failure :
  @dependencies Fixtures.env Fixtures.externalGenerator
    (Fixtures.strings ["golang.org/x/net"; "github.com/unknown/dep"])
    "a/internal/c"
  = (Fixtures.strings ["@org_golang_x_net//:go_default_library"],
     ["in dir " ++ Fixtures.quote "a/internal/c"
      ++ ", could not resolve import path "
      ++ Fixtures.quote "github.com/unknown/dep" ++ ": unknown repository"]).
Proof. reflexivity. Qed.

(** The rule of a target with imports has the deps attribute, with what
    [dependencies] returned. *)
Lemma generateRule_deps `{Env} (g : generator)
    (rel kind name visibility library : string) (hasTestdata : bool)
    (target : Target) :
  PlatformStrings_IsEmpty (Imports target) = false ->
  Attr "deps"
       (Attrs (fst (GeneratorB.generateRule g rel kind name visibility library
                                            hasTestdata target)))
  = Some (VPlatform (fst (dependencies g (Imports target) rel))).
Proof.
  intros Himports. unfold GeneratorB.generateRule. rewrite Himports.
  destruct (PlatformStrings_IsEmpty (Sources target));
    destruct (PlatformStrings_IsEmpty (CLinkOpts target));
    destruct (PlatformStrings_IsEmpty (COpts target));
    destruct hasTestdata;
    destruct (String.eqb library "");
    destruct (String.eqb visibility "");
    run_logged; reflexivity.
Qed.

Lemma dependencies_partial_failure_witness :
  In "@org_golang_x_net//:go_default_library"
     (allStrings
        (fst (@dependencies Fixtures.env Fixtures.externalGenerator
                (Fixtures.strings ["golang.org/x/net";
                                   "github.com/unknown/dep"])
                "a/internal/c")))
  /\ In ("in dir " ++ Fixtures.quote "a/internal/c"
         ++ ", could not resolve import path "
         ++ Fixtures.quote "github.com/unknown/dep" ++ ": unknown repository")
        (snd (@dependencies Fixtures.env Fixtures.externalGenerator
                (Fixtures.strings ["golang.org/x/net";
                                   "github.com/unknown/dep"])
                "a/internal/c")).
Proof.
  destruct (@dependencies_partial_failure Fixtures.env
              Fixtures.externalGenerator
              (Fixtures.strings ["golang.org/x/net"; "github.com/unknown/dep"])
              "a/internal/c") as (Hok & Herr & _).
  split.
  - apply (Hok "golang.org/x/net"
               {| repo := "org_golang_x_net"; pkg := "";
                  name := defaultLibName; relative := false |});
      [simpl; tauto | reflexivity].
  - apply (Herr "github.com/unknown/dep" "unknown repository");
      [simpl; tauto | reflexivity].
Defined.

(** ** Properties of the merge engine *)

Module MergerFacts.
Import Merger.
Section Facts.
Variable managedKind : string -> bool.
Variable handAuthored : string -> bool.
Variable priority : string -> nat.

#[local] Abbreviation insertAttr := (insertAttr priority).
#[local] Abbreviation orderAttrs := (orderAttrs priority).
#[local] Abbreviation inOrder := (inOrder priority).
#[local] Abbreviation allAbove := (allAbove priority).
#[local] Abbreviation carry := (carry handAuthored).
#[local] Abbreviation mergeAttrs := (mergeAttrs handAuthored priority).
#[local] Abbreviation mergeRule := (mergeRule handAuthored priority).
#[local] Abbreviation insertedRule := (insertedRule handAuthored priority).
#[local] Abbreviation mergeExisting :=
  (mergeExisting managedKind handAuthored priority).
#[local] Abbreviation mergeRules :=
  (mergeRules managedKind handAuthored priority).
#[local] Abbreviation merge := (merge managedKind handAuthored priority).

(** *** Looking up an attribute *)

Lemma lookupAttr_app (k : string) (l1 l2 : list attr) :
  lookupAttr k (l1 ++ l2)
  = match lookupAttr k l1 with
    | Some v => Some v
    | None => lookupAttr k l2
    end.
Proof.
  induction l1 as [|a l1 IH]; simpl; [reflexivity|].
  destruct (String.eqb (fst a) k); [reflexivity | exact IH].
Qed.

Lemma lookupAttr_insertAttr (k : string) (a : attr) (l : list attr) :
  lookupAttr k (insertAttr a l)
  = if String.eqb (fst a) k then Some (snd a) else lookupAttr k l.
Proof.
  induction l as [|b l IH]; simpl; [reflexivity|].
  destruct (Nat.leb (priority (fst a)) (priority (fst b))) eqn:Hle; simpl;
    [reflexivity|].
  rewrite IH.
  destruct (String.eqb_spec (fst b) k) as [Hb|Hb];
    destruct (String.eqb_spec (fst a) k) as [Ha|Ha]; try reflexivity.
  rewrite Ha, Hb, Nat.leb_refl in Hle. discriminate.
Qed.

Lemma lookupAttr_orderAttrs (k : string) (l : list attr) :
  lookupAttr k (orderAttrs l) = lookupAttr k l.
Proof.
  induction l as [|a l IH]; simpl; [reflexivity|].
  now rewrite lookupAttr_insertAttr, IH.
Qed.

Lemma lookupAttr_mergedNew (k : string) (old : list attr)
    (new : list (string * value)) :
  lookupAttr k (mergedNew old new)
  = option_map (mergeValue (lookupAttr k old)) (lookupValue k new).
Proof.
  unfold mergedNew. induction new as [|a new IH]; simpl; [reflexivity|].
  destruct (String.eqb_spec (fst a) k) as [->|Hne]; [reflexivity | exact IH].
Qed.

Lemma hasValue_lookupValue (k : string) (l : list (string * value)) :
  hasValue k l = match lookupValue k l with Some _ => true | None => false end.
Proof.
  induction l as [|a l IH]; simpl; [reflexivity|].
  destruct (String.eqb (fst a) k); [reflexivity | exact IH].
Qed.

Lemma hasValue_In (a : string * value) (l : list (string * value)) :
  In a l -> hasValue (fst a) l = true.
Proof.
  intros Hin. unfold hasValue. apply existsb_exists. exists a.
  split; [assumption | apply String.eqb_refl].
Qed.

(** *** The priority order *)

Lemma allAbove_cons (a b : attr) (l : list attr) :
  allAbove a (b :: l)
  = Nat.leb (priority (fst a)) (priority (fst b)) && allAbove a l.
Proof. reflexivity. Qed.

Lemma inOrder_cons (a : attr) (l : list attr) :
  inOrder (a :: l) = allAbove a l && inOrder l.
Proof. reflexivity. Qed.

Lemma insertAttr_head (a : attr) (l : list attr) :
  allAbove a l = true -> insertAttr a l = a :: l.
Proof.
  destruct l as [|b l]; [reflexivity|].
  rewrite allAbove_cons. intros Hall.
  apply andb_true_iff in Hall as [Hle _]. simpl. now rewrite Hle.
Qed.

Lemma orderAttrs_inOrder_id (l : list attr) :
  inOrder l = true -> orderAttrs l = l.
Proof.
  induction l as [|a l IH]; [reflexivity|].
  rewrite inOrder_cons. intros Hord.
  apply andb_true_iff in Hord as [Hall Hord].
  simpl. rewrite (IH Hord). now apply insertAttr_head.
Qed.

Lemma allAbove_insertAttr (a b : attr) (l : list attr) :
  allAbove a (insertAttr b l)
  = Nat.leb (priority (fst a)) (priority (fst b)) && allAbove a l.
Proof.
  induction l as [|x l IH]; [reflexivity|]. simpl.
  destruct (Nat.leb (priority (fst b)) (priority (fst x))).
  - reflexivity.
  - rewrite !allAbove_cons, IH.
    destruct (Nat.leb (priority (fst a)) (priority (fst x)));
      destruct (Nat.leb (priority (fst a)) (priority (fst b)));
      reflexivity.
Qed.

Lemma allAbove_trans (a b : attr) (l : list attr) :
  Nat.leb (priority (fst a)) (priority (fst b)) = true ->
  allAbove b l = true -> allAbove a l = true.
Proof.
  unfold Merger.allAbove. rewrite !forallb_forall. intros Hab Hb x Hin.
  specialize (Hb x Hin). apply Nat.leb_le in Hab, Hb. apply Nat.leb_le. lia.
Qed.

Lemma inOrder_insertAttr (a : attr) (l : list attr) :
  inOrder l = true -> inOrder (insertAttr a l) = true.
Proof.
  induction l as [|b l IH]; [reflexivity|].
  rewrite inOrder_cons. intros Hord.
  apply andb_true_iff in Hord as [Hall Hord]. simpl.
  destruct (Nat.leb (priority (fst a)) (priority (fst b))) eqn:Hle.
  - rewrite !inOrder_cons, allAbove_cons, Hle.
    rewrite (allAbove_trans a b l Hle Hall), Hall, Hord. reflexivity.
  - rewrite inOrder_cons, allAbove_insertAttr, Hall, (IH Hord).
    rewrite !andb_true_r.
    apply Nat.leb_le. apply Nat.leb_gt in Hle. lia.
Qed.

Lemma inOrder_orderAttrs (l : list attr) : inOrder (orderAttrs l) = true.
Proof.
  induction l as [|a l IH]; simpl; [reflexivity|].
  now apply inOrder_insertAttr.
Qed.

Lemma orderAttrs_app (l1 l2 : list attr) :
  orderAttrs (l1 ++ l2) = fold_right insertAttr (orderAttrs l2) l1.
Proof. unfold Merger.orderAttrs. apply fold_right_app. Qed.

Lemma orderAttrs_app_ordered (l1 l2 : list attr) :
  orderAttrs (l1 ++ orderAttrs l2) = orderAttrs (l1 ++ l2).
Proof.
  rewrite !orderAttrs_app.
  now rewrite (orderAttrs_inOrder_id _ (inOrder_orderAttrs l2)).
Qed.

(** *** Carrying attributes of the existing rule over *)

Lemma carry_cases (new : list (string * value)) (a : attr) :
  carry new a = [] \/ exists v, carry new a = [(fst a, v)].
Proof.
  unfold Merger.carry. destruct (hasValue (fst a) new); [now left|].
  destruct (handAuthored (fst a)).
  - right. exists (snd a). now destruct a.
  - destruct (kept (elements (snd a))) as [|e l]; [now left|].
    right. now eexists.
Qed.

Lemma allAbove_key (a a' : attr) (l : list attr) :
  fst a' = fst a -> allAbove a' l = allAbove a l.
Proof. unfold Merger.allAbove. now intros ->. Qed.

Lemma allAbove_carried (new : list (string * value)) (a : attr)
    (l : list attr) :
  allAbove a l = true -> allAbove a (flat_map (carry new) l) = true.
Proof.
  unfold Merger.allAbove. rewrite !forallb_forall. intros Hall x Hin.
  apply in_flat_map in Hin as [b [Hb Hx]].
  destruct (carry_cases new b) as [Hnone|[v Hone]].
  - rewrite Hnone in Hx. destruct Hx.
  - rewrite Hone in Hx. destruct Hx as [<-|[]]. simpl. now apply Hall.
Qed.

Lemma carried_insertAttr (new : list (string * value)) (a : attr)
    (l : list attr) :
  inOrder l = true ->
  flat_map (carry new) (insertAttr a l)
  = fold_right insertAttr (flat_map (carry new) l) (carry new a).
Proof.
  induction l as [|b l IH].
  - intros _. simpl. rewrite app_nil_r.
    destruct (carry_cases new a) as [->|[v ->]]; reflexivity.
  - rewrite inOrder_cons. intros Hord.
    apply andb_true_iff in Hord as [Hall Hord]. simpl.
    destruct (Nat.leb (priority (fst a)) (priority (fst b))) eqn:Hle; simpl.
    + destruct (carry_cases new a) as [->|[v ->]]; [reflexivity|]. simpl.
      destruct (carry_cases new b) as [->|[w ->]]; simpl.
      * symmetry. apply insertAttr_head.
        rewrite (allAbove_key a (fst a, v)) by reflexivity.
        apply allAbove_carried. now apply (allAbove_trans a b l).
      * now rewrite Hle.
    + rewrite (IH Hord).
      destruct (carry_cases new a) as [->|[v ->]]; [reflexivity|]. simpl.
      destruct (carry_cases new b) as [->|[w ->]]; simpl; [reflexivity|].
      now rewrite Hle.
Qed.

Lemma carried_orderAttrs (new : list (string * value)) (l : list attr) :
  flat_map (carry new) (orderAttrs l) = orderAttrs (flat_map (carry new) l).
Proof.
  induction l as [|a l IH]; simpl; [reflexivity|].
  rewrite carried_insertAttr by apply inOrder_orderAttrs.
  rewrite IH, orderAttrs_app. reflexivity.
Qed.

Lemma kept_kept (l : list element) : kept (kept l) = kept l.
Proof.
  unfold kept. induction l as [|x l IH]; simpl; [reflexivity|].
  destruct (keep x) eqn:Hx; simpl; rewrite ?Hx, IH; reflexivity.
Qed.

Lemma kept_app (l1 l2 : list element) :
  kept (l1 ++ l2) = (kept l1 ++ kept l2)%list.
Proof. apply List.filter_app. Qed.

Lemma carry_carried (new : list (string * value)) (a b : attr) :
  In b (carry new a) -> carry new b = [b].
Proof.
  unfold Merger.carry.
  destruct (hasValue (fst a) new) eqn:Hnew; [intros []|].
  destruct (handAuthored (fst a)) eqn:Hhand.
  - intros [<-|[]]. now rewrite Hnew, Hhand.
  - destruct (kept (elements (snd a))) as [|e l] eqn:Hkept; [intros []|].
    intros [<-|[]]. cbn [fst snd elements]. rewrite Hnew, Hhand.
    rewrite <- Hkept, kept_kept, Hkept. reflexivity.
Qed.

Lemma carried_carried (new : list (string * value)) (l : list attr) :
  flat_map (carry new) (flat_map (carry new) l) = flat_map (carry new) l.
Proof.
  induction l as [|a l IH]; simpl; [reflexivity|].
  rewrite flat_map_app, IH. f_equal.
  destruct (carry_cases new a) as [Hnone|[v Hone]].
  - now rewrite Hnone.
  - rewrite Hone. simpl. rewrite app_nil_r.
    apply carry_carried with (a := a). rewrite Hone. now left.
Qed.

Lemma carried_mergedNew (old : list attr) (new : list (string * value)) :
  flat_map (carry new) (mergedNew old new) = [].
Proof.
  unfold mergedNew.
  assert (forall l, (forall a, In a l -> hasValue (fst a) new = true) ->
            flat_map (carry new)
              (map (fun a => (fst a,
                              mergeValue (lookupAttr (fst a) old) (snd a)))
                   l) = []) as Hgen.
  { induction l as [|a l IH]; simpl; [reflexivity|].
    intros Hkeys. unfold Merger.carry at 1. simpl.
    rewrite (Hkeys a (or_introl eq_refl)). simpl.
    apply IH. intros b Hb. apply Hkeys. now right. }
  apply Hgen. intros a Hin. now apply hasValue_In.
Qed.


(** *** Merging one attribute value *)

Lemma elements_withRetained (new : value) (retained : list element) :
  elements (withRetained new retained)
  = (generatedElements new ++ retained)%list.
Proof.
  destruct new as [s|ss|ps|patterns]; simpl; try reflexivity;
    destruct retained; reflexivity.
Qed.

Lemma kept_generatedElements (new : value) :
  kept (generatedElements new) = [].
Proof.
  destruct new as [s|ss|ps|patterns]; try reflexivity.
  unfold kept. simpl. induction ss as [|x ss IH]; simpl; [reflexivity | exact IH].
Qed.

Lemma elements_mergeValue (old : option expr) (new : value) :
  elements (mergeValue old new)
  = (generatedElements new
     ++ kept (match old with Some e => elements e | None => [] end))%list.
Proof. unfold mergeValue. apply elements_withRetained. Qed.

Lemma mergeValue_again (old : option expr) (first new : value) :
  mergeValue (Some (mergeValue old first)) new = mergeValue old new.
Proof.
  unfold mergeValue at 1 3. f_equal.
  rewrite elements_mergeValue, kept_app, kept_generatedElements, kept_kept.
  reflexivity.
Qed.

(** *** Merging the attributes of a matched pair *)

Lemma mergeAttrs_eq (old : list attr) (new : list (string * value)) :
  mergeAttrs old new
  = orderAttrs (mergedNew old new ++ flat_map (carry new) old).
Proof. reflexivity. Qed.

(** The value of an attribute of the new rule after the merge. *)
Lemma lookupAttr_mergeAttrs_new (k : string) (old : list attr)
    (new : list (string * value)) (v : value) :
  lookupValue k new = Some v ->
  lookupAttr k (mergeAttrs old new) = Some (mergeValue (lookupAttr k old) v).
Proof.
  intros Hnew.
  rewrite mergeAttrs_eq, lookupAttr_orderAttrs, lookupAttr_app.
  now rewrite lookupAttr_mergedNew, Hnew.
Qed.


Lemma mergedNew_again (old old' : list attr) (new : list (string * value)) :
  (forall k, hasValue k new = true ->
             lookupAttr k old'
             = option_map (mergeValue (lookupAttr k old)) (lookupValue k new)) ->
  mergedNew old' new = mergedNew old new.
Proof.
  intros Hold'. unfold mergedNew. apply map_ext_in.
  intros a Hin. f_equal.
  pose proof (hasValue_In a new Hin) as Hhas.
  rewrite (Hold' (fst a) Hhas).
  rewrite hasValue_lookupValue in Hhas.
  destruct (lookupValue (fst a) new) as [first|]; [|discriminate].
  simpl. apply mergeValue_again.
Qed.

Lemma mergeAttrs_again (old : list attr) (new : list (string * value)) :
  mergeAttrs (mergeAttrs old new) new = mergeAttrs old new.
Proof.
  rewrite (mergeAttrs_eq (mergeAttrs old new) new).
  rewrite (mergedNew_again old (mergeAttrs old new) new).
  - rewrite (mergeAttrs_eq old new) at 1.
    rewrite carried_orderAttrs, flat_map_app.
    rewrite carried_mergedNew, carried_carried. simpl.
    rewrite orderAttrs_app_ordered. reflexivity.
  - intros k Hk. rewrite hasValue_lookupValue in Hk.
    destruct (lookupValue k new) as [v|] eqn:Hv; [|discriminate].
    now rewrite (lookupAttr_mergeAttrs_new k old new v Hv).
Qed.

(** *** Merging the rules of two trees *)

Lemma sameRule_insertedRule (g h : generatedRule) :
  sameRule (insertedRule g) h = sameGenerated g h.
Proof. reflexivity. Qed.

Lemma sameGenerated_refl (g : generatedRule) : sameGenerated g g = true.
Proof. unfold sameGenerated. now rewrite !String.eqb_refl. Qed.

Lemma sameGenerated_sym (g h : generatedRule) :
  sameGenerated g h = sameGenerated h g.
Proof.
  unfold sameGenerated.
  now rewrite (String.eqb_sym (gkind g)), (String.eqb_sym (gname g)).
Qed.

Lemma mergeExisting_kind (news : list generatedRule) (old : rule) :
  kind (mergeExisting news old) = kind old.
Proof.
  unfold Merger.mergeExisting. destruct (managedKind (kind old)); [|reflexivity].
  destruct (List.find (sameRule old) news); reflexivity.
Qed.

Lemma mergeExisting_name (news : list generatedRule) (old : rule) :
  name (mergeExisting news old) = name old.
Proof.
  unfold Merger.mergeExisting. destruct (managedKind (kind old)); [|reflexivity].
  destruct (List.find (sameRule old) news); reflexivity.
Qed.

Lemma sameRule_mergeExisting (news : list generatedRule) (old : rule)
    (g : generatedRule) :
  sameRule (mergeExisting news old) g = sameRule old g.
Proof.
  unfold sameRule. now rewrite mergeExisting_kind, mergeExisting_name.
Qed.

Lemma find_sameRule_ext (a b : rule) (l : list generatedRule) :
  kind a = kind b -> name a = name b ->
  List.find (sameRule a) l = List.find (sameRule b) l.
Proof.
  intros Hk Hn. induction l as [|x l IH]; simpl; [reflexivity|].
  unfold sameRule at 1 3. rewrite Hk, Hn.
  destruct (String.eqb (kind b) (gkind x) && String.eqb (name b) (gname x));
    [reflexivity | exact IH].
Qed.

(** A rule among the first of each kind and name is the first match of its
    own kind and name. *)
Lemma find_firstOfEach (g : generatedRule) (l : list generatedRule) :
  In g (firstOfEach l) -> List.find (sameGenerated g) l = Some g.
Proof.
  induction l as [|h l IH]; simpl; [intros []|].
  intros [->|Hin].
  - now rewrite sameGenerated_refl.
  - apply filter_In in Hin as [Hin Hdiff].
    apply negb_true_iff in Hdiff.
    rewrite sameGenerated_sym, Hdiff. now apply IH.
Qed.

Lemma mergeExisting_again (news : list generatedRule) (old : rule) :
  mergeExisting news (mergeExisting news old) = mergeExisting news old.
Proof.
  unfold Merger.mergeExisting at 2.
  destruct (managedKind (kind old)) eqn:Hmanaged.
  - destruct (List.find (sameRule old) news) as [new|] eqn:Hfind.
    + unfold Merger.mergeExisting. simpl. rewrite Hmanaged.
      rewrite (find_sameRule_ext (mergeRule old new) old news eq_refl eq_refl).
      rewrite Hfind. unfold Merger.mergeRule; simpl. f_equal.
      apply mergeAttrs_again.
    + unfold Merger.mergeExisting. now rewrite Hmanaged, Hfind.
  - unfold Merger.mergeExisting. now rewrite Hmanaged.
Qed.

Lemma mergeExisting_inserted (news : list generatedRule) (g : generatedRule) :
  In g (firstOfEach news) ->
  mergeExisting news (insertedRule g) = insertedRule g.
Proof.
  intros Hin. unfold Merger.mergeExisting.
  destruct (managedKind (kind (insertedRule g))); [|reflexivity].
  assert (List.find (sameRule (insertedRule g)) news = Some g) as ->.
  { exact (find_firstOfEach g news Hin). }
  unfold Merger.mergeRule, Merger.insertedRule. simpl. f_equal.
  apply mergeAttrs_again.
Qed.

Lemma mergeRules_eq (olds : list rule) (news : list generatedRule) :
  mergeRules olds news
  = (map (mergeExisting news) olds
     ++ map insertedRule (List.filter (unmatched olds) (firstOfEach news)))%list.
Proof. reflexivity. Qed.

Lemma filter_none {A : Type} (p : A -> bool) (l : list A) :
  (forall x, In x l -> p x = false) -> List.filter p l = [].
Proof.
  induction l as [|x l IH]; simpl; [reflexivity|].
  intros Hall. rewrite (Hall x (or_introl eq_refl)).
  apply IH. intros y Hy. apply Hall. now right.
Qed.

Lemma all_matched_after_merge (olds : list rule)
    (news : list generatedRule) :
  List.filter (unmatched (mergeRules olds news)) (firstOfEach news) = [].
Proof.
  apply filter_none. intros g Hin.
  unfold unmatched. apply negb_false_iff.
  rewrite mergeRules_eq, existsb_app.
  destruct (existsb (fun old => sameRule old g) olds) eqn:Hold.
  - apply orb_true_iff. left.
    apply existsb_exists in Hold as [t [Ht Hsame]].
    apply existsb_exists. exists (mergeExisting news t). split.
    + now apply in_map.
    + now rewrite sameRule_mergeExisting.
  - apply orb_true_iff. right.
    apply existsb_exists. exists (insertedRule g). split.
    + apply in_map, filter_In. split; [assumption|].
      unfold unmatched. now rewrite Hold.
    + rewrite sameRule_insertedRule. apply sameGenerated_refl.
Qed.

Lemma mergeRules_again (olds : list rule) (news : list generatedRule) :
  mergeRules (mergeRules olds news) news = mergeRules olds news.
Proof.
  rewrite (mergeRules_eq (mergeRules olds news) news).
  rewrite all_matched_after_merge. simpl. rewrite app_nil_r.
  rewrite mergeRules_eq, map_app, !map_map. f_equal.
  - apply map_ext. intros old. apply mergeExisting_again.
  - apply map_ext_in. intros g Hin. apply filter_In in Hin as [Hin _].
    now apply mergeExisting_inserted.
Qed.

(** *** The two properties of the merge *)


(** C1: merging the same generated tree a second time changes nothing,
    whatever the existing tree and the generated tree are. *)
Theorem merge_idempotent (T : tree) (G : generated) :
  merge (merge T G) G = merge T G.
Proof.
  unfold Merger.merge; simpl. now rewrite mergeRules_again.
Qed.

End Facts.
End MergerFacts.

(** The merge of the repository's test gives the expected file. *)
Example merge_TestMergeWithExisting :
  Merger.merge Merger.Test.managedKind Merger.Test.handAuthored
               Merger.Test.priority Merger.Test.oldData Merger.Test.newData
  = Merger.Test.expected.
Proof. vm_compute. reflexivity. Qed.


(** The marked element stays behind a generated glob. *)
Example merge_marked_behind_glob :
  option_map (fun merged => Merger.lookupAttr "srcs" (Merger.attrs merged))
    (nth_error
       (Merger.rules
          (Merger.merge Merger.Test.managedKind Merger.Test.handAuthored
                        Merger.Test.priority Merger.Test.oldData
                        Merger.Test.globData)) 1)
  = Some (Some (Merger.ConcatExpr (VGlob ["*_test.go"])
                  [Merger.Test.marked "gen_test.go"])).
Proof. vm_compute. reflexivity. Qed.

(** * Further properties of the generator *)

(** ** What each rule of a package holds *)

Module AssemblyB.
Import GeneratorB.
Section Facts.
Context `{Env}.

Lemma generateRule_values (g : generator)
    (rel kind name visibility library : string) (hasTestdata : bool)
    (target : Target) :
  let r0 := fst (generateRule g rel kind name visibility library hasTestdata
                              target) in
  Kind r0 = kind
  /\ Rule_Name r0 = name
  /\ Attr "srcs" (Attrs r0)
     = (if PlatformStrings_IsEmpty (Sources target) then None
        else Some (VPlatform (Sources target)))
  /\ Attr "data" (Attrs r0)
     = (if hasTestdata then Some (VGlob ["testdata/**"]) else None)
  /\ Attr "library" (Attrs r0)
     = (if String.eqb library "" then None
        else Some (VString (":" ++ library)))
  /\ Attr "visibility" (Attrs r0)
     = (if String.eqb visibility "" then None
        else Some (VStrings [visibility]))
  /\ Attr "deps" (Attrs r0)
     = (if PlatformStrings_IsEmpty (Imports target) then None
        else Some (VPlatform (fst (dependencies g (Imports target) rel)))).
Proof.
  cbv zeta. rewrite GeneratorBFacts.generateRule_fst. unfold Rule_Name.
  generalize (VPlatform (fst (dependencies g (Imports target) rel))).
  generalize (VPlatform (Sources target)), (VPlatform (CLinkOpts target)),
    (VPlatform (COpts target)).
  generalize (PlatformStrings_IsEmpty (Sources target)),
    (PlatformStrings_IsEmpty (CLinkOpts target)),
    (PlatformStrings_IsEmpty (COpts target)),
    (PlatformStrings_IsEmpty (Imports target)),
    (String.eqb library ""), (String.eqb visibility "").
  intros b1 b2 b3 b7 b5 b6 v1 v2 v3 v7.
  destruct b1, b2, b3, hasTestdata, b5, b6, b7; repeat split; reflexivity.
Qed.

Lemma generateCgoLib_fst (g : generator) (pkg : Package) :
  fst (generateCgoLib g pkg)
  = if Target_HasGo (CgoLibrary pkg)
    then (defaultCgoLibName,
          Some (fst (generateRule g (Rel pkg) "cgo_library" defaultCgoLibName
                                  "//visibility:private" "" false
                                  (CgoLibrary pkg))))
    else ("", None).
Proof.
  unfold generateCgoLib. destruct (Target_HasGo (CgoLibrary pkg)); simpl;
    [|reflexivity].
  unfold bind, ret.
  destruct (generateRule g (Rel pkg) "cgo_library" defaultCgoLibName
              "//visibility:private" "" false (CgoLibrary pkg)).
  reflexivity.
Qed.

Lemma generateLib_fst (g : generator) (pkg : Package) (cgoName : string) :
  fst (generateLib g pkg cgoName)
  = if negb (Target_HasGo (Library pkg)) && String.eqb cgoName ""
    then ("", None)
    else (defaultLibName,
          Some (fst (generateRule g (Rel pkg) "go_library" defaultLibName
                       (if Package_IsCommand pkg then "//visibility:private"
                        else checkInternalVisibility (Rel pkg)
                                                     "//visibility:public")
                       cgoName false (Library pkg)))).
Proof.
  unfold generateLib.
  destruct (negb (Target_HasGo (Library pkg)) && String.eqb cgoName "");
    [reflexivity|].
  unfold bind, ret.
  match goal with
  | |- context [generateRule ?a ?b ?k ?n ?v ?l ?t ?x] =>
      destruct (generateRule a b k n v l t x)
  end.
  reflexivity.
Qed.

Lemma generateBin_fst (g : generator) (pkg : Package) (library : string) :
  fst (generateBin g pkg library)
  = if negb (Package_IsCommand pkg)
       || PlatformStrings_IsEmpty (Sources (Binary pkg))
          && String.eqb library ""
    then None
    else Some (fst (generateRule g (Rel pkg) "go_binary"
                      (filepath_Base (Dir pkg))
                      (checkInternalVisibility (Rel pkg) "//visibility:public")
                      library false (Binary pkg))).
Proof.
  unfold generateBin.
  destruct (negb (Package_IsCommand pkg)
            || PlatformStrings_IsEmpty (Sources (Binary pkg))
               && String.eqb library ""); [reflexivity|].
  unfold bind, ret.
  match goal with
  | |- context [generateRule ?a ?b ?k ?n ?v ?l ?t ?x] =>
      destruct (generateRule a b k n v l t x)
  end.
  reflexivity.
Qed.

Lemma generateTest_fst (g : generator) (pkg : Package) (library : string) :
  fst (generateTest g pkg library)
  = if Target_HasGo (Test pkg)
    then Some (fst (generateRule g (Rel pkg) "go_test"
                      (if String.eqb library ""
                          || String.eqb library defaultLibName
                       then defaultTestName else library ++ "_test")
                      "" library (HasTestdata pkg) (Test pkg)))
    else None.
Proof.
  unfold generateTest. destruct (Target_HasGo (Test pkg)); simpl;
    [|reflexivity].
  unfold bind, ret.
  match goal with
  | |- context [generateRule ?a ?b ?k ?n ?v ?l ?t ?x] =>
      destruct (generateRule a b k n v l t x)
  end.
  reflexivity.
Qed.

Lemma generateXTest_fst (g : generator) (pkg : Package) (library : string) :
  fst (generateXTest g pkg library)
  = if Target_HasGo (XTest pkg)
    then Some (fst (generateRule g (Rel pkg) "go_test"
                      (if String.eqb library ""
                          || String.eqb library defaultLibName
                       then defaultXTestName else library ++ "_xtest")
                      "" "" (HasTestdata pkg) (XTest pkg)))
    else None.
Proof.
  unfold generateXTest. destruct (Target_HasGo (XTest pkg)); simpl;
    [|reflexivity].
  unfold bind, ret.
  match goal with
  | |- context [generateRule ?a ?b ?k ?n ?v ?l ?t ?x] =>
      destruct (generateRule a b k n v l t x)
  end.
  reflexivity.
Qed.

Lemma appendRule_app (rules : list Rule) (o : option Rule) :
  appendRule rules o = (rules ++ option_list o)%list.
Proof. destruct o; simpl; [reflexivity | now rewrite app_nil_r]. Qed.

(** The rules of a package, one optional rule after the other. *)
Lemma generateRules_fst (g : generator) (pkg : Package) :
  let cgo := fst (generateCgoLib g pkg) in
  let lib := fst (generateLib g pkg (fst cgo)) in
  fst (generateRules g pkg)
  = ((if String.eqb (Rel pkg) ""
      then [newRule "go_prefix" [GoPrefix (c g)] []] else [])
     ++ option_list (snd cgo)
     ++ option_list (snd lib)
     ++ option_list (fst (generateBin g pkg (fst lib)))
     ++ option_list (filegroup g pkg)
     ++ option_list (fst (generateTest g pkg (fst lib)))
     ++ option_list (fst (generateXTest g pkg (fst lib))))%list.
Proof.
  unfold generateRules, bind, ret.
  destruct (generateCgoLib g pkg) as [[cgoLibrary o1] l1]. simpl.
  destruct (generateLib g pkg cgoLibrary) as [[library o2] l2]. simpl.
  destruct (generateBin g pkg library) as [o3 l3]. simpl.
  destruct (generateTest g pkg library) as [o5 l5]. simpl.
  destruct (generateXTest g pkg library) as [o6 l6]. simpl.
  rewrite !appendRule_app, <- !app_assoc.
  destruct (String.eqb (Rel pkg) ""); reflexivity.
Qed.

End Facts.
End AssemblyB.

Lemma Kind_generateRule `{Env} (g : generator)
    (rel kind name visibility library : string) (hasTestdata : bool)
    (target : Target) :
  Kind (fst (GeneratorB.generateRule g rel kind name visibility library
                                     hasTestdata target)) = kind.
Proof. apply GeneratorBFacts.generateRule_shape. Qed.

Lemma Rule_Name_generateRule `{Env} (g : generator)
    (rel kind name visibility library : string) (hasTestdata : bool)
    (target : Target) :
  Rule_Name (fst (GeneratorB.generateRule g rel kind name visibility library
                                          hasTestdata target)) = name.
Proof. apply AssemblyB.generateRule_values. Qed.

(** ** Kind and name of the rules of a package *)

Module IdsB.
Import GeneratorB.
Section Facts.
Context `{Env}.

Lemma map_ruleId_Some (r0 : Rule) :
  map ruleId (option_list (Some r0)) = [(Kind r0, Rule_Name r0)].
Proof. reflexivity. Qed.

Lemma ids_cgo (g : generator) (pkg : Package) :
  map ruleId (option_list (snd (fst (generateCgoLib g pkg))))
  = idIf (Target_HasGo (CgoLibrary pkg)) "cgo_library" defaultCgoLibName
  /\ fst (fst (generateCgoLib g pkg))
     = if Target_HasGo (CgoLibrary pkg) then defaultCgoLibName else "".
Proof.
  rewrite AssemblyB.generateCgoLib_fst.
  destruct (Target_HasGo (CgoLibrary pkg)); [|split; reflexivity].
  cbn [fst snd idIf].
  now rewrite map_ruleId_Some, Kind_generateRule, Rule_Name_generateRule.
Qed.

Lemma ids_lib (g : generator) (pkg : Package) (cgoName : string) :
  let lib := Target_HasGo (Library pkg) || negb (String.eqb cgoName "") in
  map ruleId (option_list (snd (fst (generateLib g pkg cgoName))))
  = idIf lib "go_library" defaultLibName
  /\ fst (fst (generateLib g pkg cgoName))
     = if lib then defaultLibName else "".
Proof.
  cbv zeta. rewrite AssemblyB.generateLib_fst.
  destruct (Target_HasGo (Library pkg)), (String.eqb cgoName "");
    cbn [negb andb orb fst snd idIf];
    rewrite ?map_ruleId_Some, ?Kind_generateRule, ?Rule_Name_generateRule;
    split; reflexivity.
Qed.

Lemma ids_bin (g : generator) (pkg : Package) (library : string) :
  map ruleId (option_list (fst (generateBin g pkg library)))
  = idIf (Package_IsCommand pkg
          && (negb (PlatformStrings_IsEmpty (Sources (Binary pkg)))
              || negb (String.eqb library "")))
         "go_binary" (filepath_Base (Dir pkg)).
Proof.
  rewrite AssemblyB.generateBin_fst.
  destruct (Package_IsCommand pkg),
    (PlatformStrings_IsEmpty (Sources (Binary pkg))), (String.eqb library "");
    cbn [negb andb orb fst snd idIf];
    rewrite ?map_ruleId_Some, ?Kind_generateRule, ?Rule_Name_generateRule;
    reflexivity.
Qed.

Lemma ids_filegroup (g : generator) (pkg : Package) :
  map ruleId (option_list (filegroup g pkg))
  = idIf (HasPbGo pkg && negb (Nat.eqb (List.length (Protos pkg)) 0))
         "filegroup" defaultProtosName.
Proof.
  unfold filegroup.
  destruct (HasPbGo pkg), (Nat.eqb (List.length (Protos pkg)) 0); reflexivity.
Qed.

Lemma ids_test (g : generator) (pkg : Package) (library : string) :
  library = "" \/ library = defaultLibName ->
  map ruleId (option_list (fst (generateTest g pkg library)))
  = idIf (Target_HasGo (Test pkg)) "go_test" defaultTestName.
Proof.
  intros Hlib. rewrite AssemblyB.generateTest_fst.
  destruct (Target_HasGo (Test pkg)); [|reflexivity].
  rewrite map_ruleId_Some, Kind_generateRule, Rule_Name_generateRule.
  destruct Hlib as [->| ->]; reflexivity.
Qed.

Lemma ids_xtest (g : generator) (pkg : Package) (library : string) :
  library = "" \/ library = defaultLibName ->
  map ruleId (option_list (fst (generateXTest g pkg library)))
  = idIf (Target_HasGo (XTest pkg)) "go_test" defaultXTestName.
Proof.
  intros Hlib. rewrite AssemblyB.generateXTest_fst.
  destruct (Target_HasGo (XTest pkg)); [|reflexivity].
  rewrite map_ruleId_Some, Kind_generateRule, Rule_Name_generateRule.
  destruct Hlib as [->| ->]; reflexivity.
Qed.

End Facts.
End IdsB.

Lemma map_ruleId_generateRules `{Env} (g : generator) (pkg : Package) :
  map ruleId (fst (GeneratorB.generateRules g pkg)) = packageIds pkg.
Proof.
  rewrite AssemblyB.generateRules_fst. cbv zeta. rewrite !map_app.
  destruct (IdsB.ids_cgo g pkg) as [-> ->].
  destruct (IdsB.ids_lib g pkg
              (if Target_HasGo (CgoLibrary pkg) then defaultCgoLibName else ""))
    as [-> ->].
  rewrite IdsB.ids_bin, IdsB.ids_filegroup.
  rewrite IdsB.ids_test, IdsB.ids_xtest.
  - unfold packageIds.
    destruct (String.eqb (Rel pkg) ""), (Target_HasGo (CgoLibrary pkg)),
      (Target_HasGo (Library pkg)); reflexivity.
  - destruct (Target_HasGo (Library pkg)
              || negb (String.eqb
                         (if Target_HasGo (CgoLibrary pkg)
                          then defaultCgoLibName else "") "")); auto.
  - destruct (Target_HasGo (Library pkg)
              || negb (String.eqb
                         (if Target_HasGo (CgoLibrary pkg)
                          then defaultCgoLibName else "") "")); auto.
Qed.

Lemma packageIds_NoDup `{Env} (pkg : Package) :
  List.NoDup (packageIds pkg).
Proof.
  unfold packageIds.
  generalize (filepath_Base (Dir pkg)). intros base.
  generalize (Package_IsCommand pkg
              && (negb (PlatformStrings_IsEmpty (Sources (Binary pkg)))
                  || (Target_HasGo (Library pkg)
                      || Target_HasGo (CgoLibrary pkg)))).
  generalize (HasPbGo pkg && negb (Nat.eqb (List.length (Protos pkg)) 0)).
  generalize (Target_HasGo (Library pkg) || Target_HasGo (CgoLibrary pkg)).
  generalize (String.eqb (Rel pkg) ""), (Target_HasGo (CgoLibrary pkg)),
    (Target_HasGo (Test pkg)), (Target_HasGo (XTest pkg)).
  intros b0 b1 b5 b6 b2 b4 b3.
  cbv [defaultCgoLibName defaultLibName defaultProtosName defaultTestName
       defaultXTestName].
  destruct b0, b1, b2, b3, b4, b5, b6; cbn [idIf app];
    repeat (constructor; [cbn [In]; intuition discriminate|]);
    constructor.
Qed.

(** X1: the rules of a package come in the fixed order go_prefix,
    cgo_library, go_library, go_binary, filegroup, go_test, go_test, each
    exactly under its own condition and with its own name. *)
Theorem generateRules_ids `{Env} (g : generator) (pkg : Package) :
  map ruleId (fst (GeneratorB.generateRules g pkg)) = packageIds pkg.
Proof. rewrite map_ruleId_generateRules. reflexivity. Qed.

(** X2: in the revision without [bfPath], kind and name identify each rule
    of a package. *)
Theorem generateRules_unique_ids `{Env} (g : generator) (pkg : Package) :
  List.NoDup (map ruleId (fst (GeneratorB.generateRules g pkg))).
Proof. rewrite map_ruleId_generateRules. apply packageIds_NoDup. Qed.

(** ** The load statement and the generated file *)

Lemma hasString_ext (l1 l2 : list string) (k : string) :
  (In k l1 <-> In k l2) -> hasString k l1 = hasString k l2.
Proof.
  intros Hiff.
  destruct (hasString k l1) eqn:H1; destruct (hasString k l2) eqn:H2;
    try reflexivity.
  - apply hasString_In, Hiff, hasString_In in H1. congruence.
  - apply hasString_In, Hiff, hasString_In in H2. congruence.
Qed.

(** X3: the load statement depends on the set of kinds only: two lists of
    rules with the same kinds, in any order and number, get the same load
    statement. *)
Theorem generateLoad_kinds_only (rs1 rs2 : list Rule) :
  (forall k, In k (map Kind rs1) <-> In k (map Kind rs2)) ->
  generateLoad rs1 = generateLoad rs2.
Proof.
  intros Hkinds. rewrite !generateLoad_presentKinds.
  assert (presentKinds rs1 = presentKinds rs2) as ->; [|reflexivity].
  unfold presentKinds. apply filter_ext. intros k.
  apply hasString_ext, Hkinds.
Qed.

Lemma generateLoad_kinds_only_witness :
  generateLoad
    [newRule "go_test" [] []; newRule "go_library" [] [];
     newRule "go_test" [] []]
  = generateLoad [newRule "go_library" [] []; newRule "go_test" [] []].
Proof.
  apply generateLoad_kinds_only. intros k. simpl. tauto.
Defined.

Lemma statements_eq (load : option CallExpr) (rs : list Rule) :
  statements load rs
  = (match load with Some call => [LoadCall call] | None => [] end
     ++ map RuleCall rs)%list.
Proof.
  unfold statements.
  assert (forall acc, fold_left (fun stmt r0 => (stmt ++ [RuleCall r0])%list)
                                rs acc
                      = (acc ++ map RuleCall rs)%list) as Hfold.
  { induction rs as [|r0 rs IH]; intros acc; simpl.
    - now rewrite app_nil_r.
    - now rewrite IH, <- app_assoc. }
  rewrite Hfold. destruct load; reflexivity.
Qed.

Lemma fileRules_map (l : list Rule) :
  flat_map (fun e => match e with RuleCall r0 => [r0] | LoadCall _ => [] end)
           (map RuleCall l) = l.
Proof. induction l as [|r0 l IH]; simpl; [reflexivity | now rewrite IH]. Qed.

Lemma loadCalls_map (l : list Rule) : loadCalls (map RuleCall l) = [].
Proof. induction l as [|r0 l IH]; simpl; [reflexivity | exact IH]. Qed.

Lemma fileRules_statements (path : string) (rs : list Rule) :
  fileRules {| Path := path; Stmt := statements (generateLoad rs) rs |} = rs.
Proof.
  unfold fileRules. simpl. rewrite statements_eq.
  destruct (generateLoad rs); simpl; apply fileRules_map.
Qed.

Lemma wellLoaded_statements (path : string) (rs : list Rule) :
  wellLoaded {| Path := path; Stmt := statements (generateLoad rs) rs |}.
Proof.
  split.
  - intros r0 Hin Hloadable. rewrite fileRules_statements in Hin.
    simpl. rewrite statements_eq.
    assert (In (Kind r0) (presentKinds rs)) as Hpresent.
    { apply filter_In. split; [assumption|].
      apply hasString_In, in_map_iff. eauto. }
    rewrite generateLoad_presentKinds.
    destruct (presentKinds rs) as [|k ks]; [destruct Hpresent|].
    eexists. simpl. repeat split. exact Hpresent.
  - simpl. rewrite statements_eq.
    destruct (generateLoad rs); simpl; [apply loadCalls_map|].
    destruct rs; simpl; [reflexivity | apply loadCalls_map].
Qed.

Lemma vendorRules_eq `{Env} (g : generator) (bfPath : string)
    (vendored : list Package) (rules : list Rule) :
  GenerateA.vendorRules g bfPath vendored rules
  = ((rules ++ flat_map (fun p => fst (GeneratorA.generateVendorRules
                                         g bfPath p)) vendored)%list,
     flat_map (fun p => snd (GeneratorA.generateVendorRules g bfPath p))
              vendored).
Proof.
  revert rules. induction vendored as [|p vendored IH]; intros rules; simpl.
  - unfold ret. now rewrite app_nil_r.
  - unfold bind.
    destruct (GeneratorA.generateVendorRules g bfPath p) as [rs l].
    rewrite IH. simpl. now rewrite <- app_assoc.
Qed.

(** X4: the file of a package calls its rules, in the order of assembly,
    behind the load statement: every kind that needs loading is loaded from
    the Go rules by the first statement, and no other statement is a load.
    The file lies in the directory of the package. *)
Theorem Generate_file `{Env} `{FileEnv} (g : generator) (pkg : Package) :
  let fileA := fst (GenerateA.Generate g pkg) in
  let fileB := snd (fst (GenerateB.Generate g pkg)) in
  fileRules fileA = fst (GeneratorA.generateRules g (Dir pkg) pkg)
  /\ fileRules fileB = fst (GeneratorB.generateRules g pkg)
  /\ wellLoaded fileA /\ wellLoaded fileB
  /\ Path fileA = filepath_Join (Dir pkg) (DefaultBuildFileName (c g))
  /\ Path fileB = filepath_Join (Dir pkg) (DefaultBuildFileName (c g)).
Proof.
  unfold GenerateA.Generate, GenerateB.Generate, bind, ret. cbv zeta.
  destruct (GeneratorA.generateRules g (Dir pkg) pkg) as [rsA lA].
  destruct (GeneratorB.generateRules g pkg) as [rsB lB]. simpl.
  repeat split; try apply fileRules_statements; apply wellLoaded_statements.
Qed.

(** X5: the vendor file calls the rules of every vendored package, in the
    order of the packages, behind one load statement for all of them, and
    what the packages logged is logged in the same order. *)
Theorem GenerateVendor_file `{Env} `{FileEnv} (g : generator)
    (bfPath : string) (vendored : list Package) :
  let file := fst (GenerateA.GenerateVendor g bfPath vendored) in
  fileRules file
  = flat_map (fun p => fst (GeneratorA.generateVendorRules g bfPath p))
             vendored
  /\ wellLoaded file
  /\ Path file = filepath_Join bfPath (DefaultBuildFileName (c g))
  /\ snd (GenerateA.GenerateVendor g bfPath vendored)
     = flat_map (fun p => snd (GeneratorA.generateVendorRules g bfPath p))
                vendored.
Proof.
  unfold GenerateA.GenerateVendor, bind, ret. cbv zeta.
  rewrite vendorRules_eq. simpl.
  repeat split; try apply fileRules_statements;
    try apply wellLoaded_statements.
  now rewrite app_nil_r.
Qed.

(** ** Building the generator *)


Lemma insertString_Permutation (x : string) (l : list string) :
  Permutation (x :: l) (insertString x l).
Proof.
  induction l as [|y l IH]; simpl; [reflexivity|].
  destruct (String.leb x y); [reflexivity|].
  rewrite perm_swap. now apply perm_skip.
Qed.

Lemma sort_Sort_Permutation (l : list string) : Permutation l (sort_Sort l).
Proof.
  induction l as [|x l IH]; simpl; [reflexivity|].
  rewrite <- insertString_Permutation. now apply perm_skip.
Qed.

Lemma insertString_Sorted (x : string) (l : list string) :
  Sorted (fun a b => String.leb a b = true) l ->
  Sorted (fun a b => String.leb a b = true) (insertString x l).
Proof.
  induction l as [|y l IH]; simpl; intros Hsorted.
  - repeat constructor.
  - destruct (String.leb x y) eqn:Hxy.
    + constructor; [assumption|]. now constructor.
    + inversion Hsorted as [|y' l' Hl Hhd]; subst.
      constructor; [now apply IH|].
      assert (String.leb y x = true) as Hyx.
      { destruct (String.leb_total x y) as [Hle|Hle]; congruence. }
      destruct l as [|z l]; simpl.
      * now constructor.
      * destruct (String.leb x z); constructor; [assumption|].
        now inversion Hhd.
Qed.

Lemma sort_Sort_Sorted (l : list string) :
  Sorted (fun a b => String.leb a b = true) (sort_Sort l).
Proof.
  induction l as [|x l IH]; simpl; [constructor|].
  now apply insertString_Sorted.
Qed.

(** X7: in the multi-root mode the resolver holds the configured
    directories, each without the repository root in front, in ascending
    byte order. *)
Theorem newModeResolver_uno_sorted `{Env} (c0 : Config) :
  DepMode c0 = UnoMode ->
  exists projRoots,
    newModeResolver c0 = Some (unoResolver projRoots)
    /\ Permutation
         (map (fun dir => TrimPrefix dir (path_Clean (RepoRoot c0) ++ "/"))
              (Dirs c0))
         projRoots
    /\ Sorted (fun a b => String.leb a b = true) projRoots.
Proof.
  intros Hmode. unfold newModeResolver. rewrite Hmode. cbv zeta.
  eexists. split; [reflexivity|]. split.
  - apply sort_Sort_Permutation.
  - apply sort_Sort_Sorted.
Qed.

Lemma newModeResolver_uno_sorted_witness :
  exists projRoots,
    @newModeResolver Fixtures.env Fixtures.unoConfig
    = Some (unoResolver projRoots)
    /\ Permutation
         (map (fun dir =>
                 TrimPrefix dir
                   (@path_Clean Fixtures.env (RepoRoot Fixtures.unoConfig)
                    ++ "/"))
              (Dirs Fixtures.unoConfig))
         projRoots
    /\ Sorted (fun a b => String.leb a b = true) projRoots.
Proof.
  apply (@newModeResolver_uno_sorted Fixtures.env Fixtures.unoConfig).
  reflexivity.
Defined.

(** ** The last occurrence of the internal segment *)

Lemma lastIndexFrom_spec (sub s : string) (i : Z) :
  (0 <= i)%Z ->
  (lastIndexFrom sub i s = (-1)%Z /\ forall j, ~ occursAt sub s j)
  \/ (exists k, lastIndexFrom sub i s = (i + Z.of_nat k)%Z
                /\ occursAt sub s k
                /\ forall j, k < j -> ~ occursAt sub s j).
Proof.
  revert i. induction s as [|ch s IH]; intros i Hi.
  - change (lastIndexFrom sub i "")
      with (if String.prefix sub "" then i else (-1)%Z).
    destruct (String.prefix sub "") eqn:Hp.
    + right. exists 0. split; [lia|]. split; [split; [simpl; lia|exact Hp]|].
      intros j Hj [Hlen _]. simpl in Hlen. lia.
    + left. split; [reflexivity|]. intros j [Hlen Hocc]. simpl in Hlen.
      assert (j = 0) as -> by lia. cbn [sliceFrom] in Hocc. congruence.
  - change (lastIndexFrom sub i (String ch s))
      with (if (0 <=? lastIndexFrom sub (i + 1) s)%Z
            then lastIndexFrom sub (i + 1) s
            else if String.prefix sub (String ch s) then i else (-1)%Z).
    destruct (IH (i + 1)%Z ltac:(lia)) as [[Hnone Hno]|[k [Hk [Hocc Hlast]]]].
    + rewrite Hnone. change ((0 <=? -1)%Z) with false. cbv iota.
      destruct (String.prefix sub (String ch s)) eqn:Hp.
      * right. exists 0. split; [lia|].
        split; [split; [simpl; lia|exact Hp]|].
        intros j Hj [Hlen Hoccj]. destruct j as [|j]; [lia|].
        apply (Hno j). split; [simpl in Hlen; lia | exact Hoccj].
      * left. split; [reflexivity|]. intros j [Hlen Hoccj].
        destruct j as [|j]; [cbn [sliceFrom] in Hoccj; congruence|].
        apply (Hno j). split; [simpl in Hlen; lia | exact Hoccj].
    + rewrite Hk.
      assert ((0 <=? i + 1 + Z.of_nat k)%Z = true) as -> by (apply Z.leb_le; lia).
      right. exists (S k). split; [lia|]. destruct Hocc as [Hlen Hocc].
      split; [split; [simpl; lia | exact Hocc]|].
      intros j Hj [Hlenj Hoccj]. destruct j as [|j]; [lia|].
      apply (Hlast j); [lia|]. split; [simpl in Hlenj; lia | exact Hoccj].
Qed.

(** X8: [checkInternalVisibility] looks at the last place where /internal/
    occurs in the path: the package is visible below the part of the path
    in front of that place.  When /internal/ occurs nowhere, a path that
    starts with internal/ is visible in the whole repository, and any other
    path keeps the visibility it was given. *)
Theorem checkInternalVisibility_last_occurrence (rel visibility : string) :
  (forall k,
     occursAt "/internal/" rel k ->
     (forall j, k < j -> ~ occursAt "/internal/" rel j) ->
     checkInternalVisibility rel visibility
     = "//" ++ sliceTo k rel ++ ":__subpackages__")
  /\ ((forall j, ~ occursAt "/internal/" rel j) ->
      checkInternalVisibility rel visibility
      = if HasPrefix rel "internal/" then "//:__subpackages__"
        else visibility).
Proof.
  unfold checkInternalVisibility, LastIndex. cbv zeta.
  destruct (lastIndexFrom_spec "/internal/" rel 0 ltac:(lia))
    as [[Hnone Hno]|[k0 [Hk0 [Hocc Hlast]]]].
  - rewrite Hnone. split.
    + intros k Hk _. destruct (Hno k Hk).
    + intros _. reflexivity.
  - rewrite Hk0, Z.add_0_l.
    assert ((0 <=? Z.of_nat k0)%Z = true) as -> by (apply Z.leb_le; lia).
    rewrite Nat2Z.id. split.
    + intros k Hk Hklast.
      assert (k = k0) as ->; [|reflexivity].
      destruct (Nat.lt_trichotomy k k0) as [Hlt|[Heq|Hgt]]; [|assumption|].
      * destruct (Hklast k0 Hlt Hocc).
      * destruct (Hlast k Hgt Hk).
    + intros Hno. destruct (Hno k0 Hocc).
Qed.

Example visibility_last_internal :
  checkInternalVisibility "a/internal/b/internal/c" "//visibility:public"
  = "//a/internal/b:__subpackages__".
Proof. reflexivity. Qed.

(** ** The library, binary and test rules *)

Lemma checkInternalVisibility_nonempty (rel visibility : string) :
  visibility <> "" ->
  String.eqb (checkInternalVisibility rel visibility) "" = false.
Proof.
  intros Hvis. unfold checkInternalVisibility. cbv zeta.
  destruct (0 <=? LastIndex rel "/internal/")%Z; [reflexivity|].
  destruct (HasPrefix rel "internal/"); [reflexivity|].
  now apply String.eqb_neq.
Qed.

(** X9: the library rule is called go_default_library; it refers to the
    cgo library by name when there is one, and it is private in a command
    package and otherwise public or narrowed to the tree around its
    internal directory. *)
Theorem generateLib_rule `{Env} (g : generator) (pkg : Package)
    (cgoName : string) (r0 : Rule) :
  snd (fst (GeneratorB.generateLib g pkg cgoName)) = Some r0 ->
  fst (fst (GeneratorB.generateLib g pkg cgoName)) = defaultLibName
  /\ Kind r0 = "go_library"
  /\ Rule_Name r0 = defaultLibName
  /\ Attr "library" (Attrs r0)
     = (if String.eqb cgoName "" then None
        else Some (VString (":" ++ cgoName)))
  /\ Attr "visibility" (Attrs r0)
     = Some (VStrings
               [if Package_IsCommand pkg then "//visibility:private"
                else checkInternalVisibility (Rel pkg) "//visibility:public"]).
Proof.
  rewrite AssemblyB.generateLib_fst.
  destruct (negb (Target_HasGo (Library pkg)) && String.eqb cgoName "");
    [discriminate|].
  cbn [fst snd]. intros [= <-].
  destruct (AssemblyB.generateRule_values g (Rel pkg) "go_library"
              defaultLibName
              (if Package_IsCommand pkg then "//visibility:private"
               else checkInternalVisibility (Rel pkg) "//visibility:public")
              cgoName false (Library pkg))
    as (Hkind & Hname & _ & _ & Hlib & Hvis & _).
  repeat split; try assumption.
  rewrite Hvis.
  destruct (Package_IsCommand pkg); [reflexivity|].
  now rewrite checkInternalVisibility_nonempty.
Qed.

Lemma generateLib_rule_witness :
  let r0 :=
    newRule "go_library" []
      [ mkKeyvalue "name" (VString "go_default_library");
        mkKeyvalue "srcs" (VPlatform (Fixtures.strings ["c.go"]));
        mkKeyvalue "library" (VString ":cgo_default_library");
        mkKeyvalue "visibility" (VStrings ["//a:__subpackages__"]);
        mkKeyvalue "deps"
          (VPlatform
             (Fixtures.strings ["@org_golang_x_net//:go_default_library"])) ]
  in
  fst (fst (@GeneratorB.generateLib Fixtures.env Fixtures.externalGenerator
              Fixtures.subPackage "cgo_default_library"))
  = defaultLibName
  /\ Kind r0 = "go_library"
  /\ Rule_Name r0 = defaultLibName
  /\ Attr "library" (Attrs r0) = Some (VString ":cgo_default_library")
  /\ Attr "visibility" (Attrs r0) = Some (VStrings ["//a:__subpackages__"]).
Proof.
  intros r0.
  apply (@generateLib_rule Fixtures.env Fixtures.externalGenerator
           Fixtures.subPackage "cgo_default_library" r0).
  reflexivity.
Defined.

(** X10: a binary rule is built for command packages only; it is called
    after the directory of the package and refers to the library when there
    is one. *)
Theorem generateBin_rule `{Env} (g : generator) (pkg : Package)
    (library : string) (r0 : Rule) :
  fst (GeneratorB.generateBin g pkg library) = Some r0 ->
  Package_IsCommand pkg = true
  /\ (PlatformStrings_IsEmpty (Sources (Binary pkg)) = false
      \/ library <> "")
  /\ Kind r0 = "go_binary"
  /\ Rule_Name r0 = filepath_Base (Dir pkg)
  /\ Attr "library" (Attrs r0)
     = (if String.eqb library "" then None
        else Some (VString (":" ++ library)))
  /\ Attr "visibility" (Attrs r0)
     = Some (VStrings
               [checkInternalVisibility (Rel pkg) "//visibility:public"]).
Proof.
  rewrite AssemblyB.generateBin_fst.
  destruct (Package_IsCommand pkg); [|discriminate]. cbn [negb orb].
  destruct (PlatformStrings_IsEmpty (Sources (Binary pkg))) eqn:Hempty;
    destruct (String.eqb_spec library "") as [Hlib|Hlib];
    cbn [andb]; try discriminate; intros [= <-];
    destruct (AssemblyB.generateRule_values g (Rel pkg) "go_binary"
                (filepath_Base (Dir pkg))
                (checkInternalVisibility (Rel pkg) "//visibility:public")
                library false (Binary pkg))
      as (Hkind & Hname & _ & _ & Hl & Hvis & _);
    rewrite checkInternalVisibility_nonempty in Hvis by discriminate;
    (repeat split; try assumption; [auto|]);
    rewrite Hl; destruct (String.eqb_spec library ""); congruence.
Qed.

Lemma generateBin_rule_witness :
  let pkg :=
    {| Dir := "cmd"; Rel := "cmd";
       Library := Fixtures.noTarget; CgoLibrary := Fixtures.noTarget;
       Binary := Fixtures.goTarget ["main.go"] [];
       Test := Fixtures.noTarget; XTest := Fixtures.noTarget;
       HasPbGo := false; HasTestdata := false; Protos := [] |} in
  let env :=
    {| path_Clean := fun p => p;
       path_Join := fun a b => a ++ "/" ++ b;
       filepath_Base := fun p => p;
       strconv_Quote := Fixtures.quote;
       Target_HasGo := fun t => negb (PlatformStrings_IsEmpty (Sources t));
       Package_IsCommand := fun _ => true;
       structuredResolver_resolve := fun _ _ _ => Err "none";
       externalResolver_resolve := fun _ _ => Err "none";
       unoResolver_resolve := fun _ _ _ => Err "none" |} in
  let r0 :=
    newRule "go_binary" []
      [ mkKeyvalue "name" (VString "cmd");
        mkKeyvalue "srcs" (VPlatform (Fixtures.strings ["main.go"]));
        mkKeyvalue "visibility" (VStrings ["//visibility:public"]) ] in
  @Package_IsCommand env pkg = true
  /\ (PlatformStrings_IsEmpty (Sources (Binary pkg)) = false \/ "" <> "")
  /\ Kind r0 = "go_binary"
  /\ Rule_Name r0 = "cmd"
  /\ Attr "library" (Attrs r0) = None
  /\ Attr "visibility" (Attrs r0) = Some (VStrings ["//visibility:public"]).
Proof.
  intros pkg env r0.
  apply (@generateBin_rule env Fixtures.externalGenerator pkg "" r0).
  reflexivity.
Defined.

(** X11: test rules have no visibility attribute.  The internal test is
    called go_default_test and refers to the library when there is one; the
    external test is called go_default_xtest and never refers to the
    library; both glob testdata when the package has test data. *)
Theorem generateTest_rules `{Env} (g : generator) (pkg : Package)
    (library : string) :
  library = "" \/ library = defaultLibName ->
  (forall r0, fst (GeneratorB.generateTest g pkg library) = Some r0 ->
     Kind r0 = "go_test"
     /\ Rule_Name r0 = defaultTestName
     /\ Attr "library" (Attrs r0)
        = (if String.eqb library "" then None
           else Some (VString (":" ++ library)))
     /\ Attr "visibility" (Attrs r0) = None
     /\ Attr "data" (Attrs r0)
        = (if HasTestdata pkg then Some (VGlob ["testdata/**"]) else None))
  /\ (forall r0, fst (GeneratorB.generateXTest g pkg library) = Some r0 ->
        Kind r0 = "go_test"
        /\ Rule_Name r0 = defaultXTestName
        /\ Attr "library" (Attrs r0) = None
        /\ Attr "visibility" (Attrs r0) = None
        /\ Attr "data" (Attrs r0)
           = (if HasTestdata pkg then Some (VGlob ["testdata/**"]) else None)).
Proof.
  intros Hlib. split; intros r0.
  - rewrite AssemblyB.generateTest_fst.
    destruct (Target_HasGo (Test pkg)); [|discriminate]. intros [= <-].
    match goal with
    | |- context [GeneratorB.generateRule ?a ?b ?k ?n ?v ?l ?t ?x] =>
        destruct (AssemblyB.generateRule_values a b k n v l t x)
          as (Hkind & Hname & _ & Hdata & Hl & Hvis & _)
    end.
    repeat split; try assumption.
    rewrite Hname. destruct Hlib as [->| ->]; reflexivity.
  - rewrite AssemblyB.generateXTest_fst.
    destruct (Target_HasGo (XTest pkg)); [|discriminate]. intros [= <-].
    match goal with
    | |- context [GeneratorB.generateRule ?a ?b ?k ?n ?v ?l ?t ?x] =>
        destruct (AssemblyB.generateRule_values a b k n v l t x)
          as (Hkind & Hname & _ & Hdata & Hl & Hvis & _)
    end.
    repeat split; try assumption.
    rewrite Hname. destruct Hlib as [->| ->]; reflexivity.
Qed.

Lemma generateTest_rules_witness :
  fst (@GeneratorB.generateXTest Fixtures.env Fixtures.externalGenerator
         Fixtures.testedPackage defaultLibName)
  = Some (newRule "go_test" []
            [ mkKeyvalue "name" (VString "go_default_xtest");
              mkKeyvalue "srcs" (VPlatform (Fixtures.strings ["x_ext_test.go"]));
              mkKeyvalue "data" (VGlob ["testdata/**"]) ])
  /\ Attr "library"
       (Attrs (newRule "go_test" []
                 [ mkKeyvalue "name" (VString "go_default_xtest");
                   mkKeyvalue "srcs"
                     (VPlatform (Fixtures.strings ["x_ext_test.go"]));
                   mkKeyvalue "data" (VGlob ["testdata/**"]) ])) = None.
Proof.
  split; [reflexivity|].
  destruct (@generateTest_rules Fixtures.env Fixtures.externalGenerator
              Fixtures.testedPackage defaultLibName (or_intror eq_refl))
    as [_ Hx].
  apply (Hx _ eq_refl).
Defined.

(** ** The revision with [bfPath]: relative paths and vendored packages *)

Lemma sliceFrom_append (a b : string) :
  sliceFrom (String.length a) (a ++ b) = b.
Proof. induction a as [|ch a IH]; [reflexivity | exact IH]. Qed.

Lemma append_longer (a rest : string) (ch : ascii) :
  a ++ String ch rest <> a.
Proof.
  induction a as [|h a IH]; [discriminate|].
  rewrite append_cons. intros Heq. injection Heq as Heq. now apply IH.
Qed.

Lemma TrimPrefix_append (a b : string) : TrimPrefix (a ++ b) a = b.
Proof.
  unfold TrimPrefix.
  assert (HasPrefix (a ++ b) a = true) as -> by (apply HasPrefix_app; eauto).
  apply sliceFrom_append.
Qed.

(** X12: [relPath] compares the cleaned paths as text.  When the cleaned
    path is the cleaned base followed by one more character and a rest, the
    result is that rest, whatever the character is; when the two cleaned
    paths are equal, or the base is no prefix of the path, the result is
    empty. *)
Theorem relPath_below `{Env} (base p rest : string) (sep : ascii) :
  path_Clean p = path_Clean base ++ String sep rest ->
  GeneratorA.relPath base p = rest.
Proof.
  intros Hp. unfold GeneratorA.relPath. cbv zeta. rewrite Hp.
  assert (String.eqb (path_Clean base ++ String sep rest) (path_Clean base)
          = false) as ->
    by (apply String.eqb_neq, append_longer).
  assert (HasPrefix (path_Clean base ++ String sep rest) (path_Clean base)
          = true) as ->
    by (apply HasPrefix_app; eauto).
  rewrite TrimPrefix_append. reflexivity.
Qed.

Lemma relPath_below_witness :
  @path_Clean Fixtures.env "/repo/vendor/x"
  = @path_Clean Fixtures.env "/repo" ++ String "/" "vendor/x"
  /\ @GeneratorA.relPath Fixtures.env "/repo" "/repo/vendor/x" = "vendor/x".
Proof.
  split; [reflexivity|].
  apply (@relPath_below Fixtures.env "/repo" "/repo/vendor/x" "vendor/x" "/").
  reflexivity.
Defined.

Lemma relPath_outside `{Env} (base p : string) :
  path_Clean p = path_Clean base
  \/ HasPrefix (path_Clean p) (path_Clean base) = false ->
  GeneratorA.relPath base p = "".
Proof.
  unfold GeneratorA.relPath. cbv zeta. intros [ -> | -> ].
  - now rewrite String.eqb_refl.
  - now rewrite andb_false_r.
Qed.

(** X13: for a build file above the package, the filegroup of the revision
    with [bfPath] is called after the relative path and lists no file: the
    loop that should prefix the proto files runs over an empty slice.  For
    a build file in the package it lists the proto files. *)
Theorem filegroup_bf_srcs `{Env} (g : generator) (bfPath : string)
    (pkg : Package) :
  HasPbGo pkg = true ->
  Protos pkg <> [] ->
  GeneratorA.filegroup g bfPath pkg
  = Some (newRule "filegroup" []
            [ mkKeyvalue "name"
                (VString
                   (if String.eqb (GeneratorA.relPath bfPath (Dir pkg)) ""
                    then defaultProtosName
                    else GeneratorA.relPath bfPath (Dir pkg) ++ "_"
                         ++ defaultProtosName));
              mkKeyvalue "srcs"
                (VStrings
                   (if String.eqb (GeneratorA.relPath bfPath (Dir pkg)) ""
                    then Protos pkg else []));
              mkKeyvalue "visibility" (VStrings ["//visibility:public"]) ]).
Proof.
  intros Hpb Hprotos. unfold GeneratorA.filegroup. cbv zeta. rewrite Hpb.
  destruct (Protos pkg) as [|proto protos] eqn:Hp; [congruence|].
  cbn [negb orb List.length Nat.eqb].
  destruct (String.eqb (GeneratorA.relPath bfPath (Dir pkg)) ""); reflexivity.
Qed.

Lemma filegroup_bf_srcs_witness :
  @GeneratorA.filegroup Fixtures.env Fixtures.externalGenerator "/repo"
     Fixtures.testedPackage
  = Some (newRule "filegroup" []
            [ mkKeyvalue "name" (VString "vendor/x_go_default_library_protos");
              mkKeyvalue "srcs" (VStrings []);
              mkKeyvalue "visibility" (VStrings ["//visibility:public"]) ]).
Proof.
  apply (@filegroup_bf_srcs Fixtures.env Fixtures.externalGenerator "/repo"
           Fixtures.testedPackage); [reflexivity | discriminate].
Defined.

Module AssemblyA.
Import GeneratorA.
Section Facts.
Context `{Env}.

Lemma Kind_generateRule_bf (g : generator)
    (bfPath rel kind name visibility library : string) (hasTestdata : bool)
    (target : Target) :
  Kind (fst (generateRule g bfPath rel kind name visibility library
                          hasTestdata target)) = kind.
Proof. apply GeneratorAFacts.generateRule_shape_bf. Qed.

Lemma Rule_Name_generateRule_bf (g : generator)
    (bfPath rel kind name visibility library : string) (hasTestdata : bool)
    (target : Target) :
  Rule_Name (fst (generateRule g bfPath rel kind name visibility library
                               hasTestdata target))
  = if String.eqb (relPath bfPath (path_Join (RepoRoot (c g)) rel)) ""
    then name
    else relPath bfPath (path_Join (RepoRoot (c g)) rel).
Proof.
  unfold Rule_Name.
  destruct (GeneratorAFacts.generateRule_shape_bf g bfPath rel kind name
              visibility library hasTestdata target)
    as (_ & _ & _ & Hname & _).
  cbv zeta in Hname. now rewrite Hname.
Qed.

Lemma generateCgoLib_fst_bf (g : generator) (bfPath : string)
    (pkg : Package) :
  let rule :=
    fst (generateRule g bfPath (Rel pkg) "cgo_library" defaultCgoLibName
                      "//visibility:private" "" false (CgoLibrary pkg)) in
  fst (generateCgoLib g bfPath pkg)
  = if Target_HasGo (CgoLibrary pkg)
    then (Rule_Name rule, Some rule) else ("", None).
Proof.
  cbv zeta. unfold generateCgoLib.
  destruct (Target_HasGo (CgoLibrary pkg)); simpl; [|reflexivity].
  unfold bind, ret.
  destruct (generateRule g bfPath (Rel pkg) "cgo_library" defaultCgoLibName
              "//visibility:private" "" false (CgoLibrary pkg)).
  reflexivity.
Qed.

Lemma generateLib_fst_bf (g : generator) (bfPath : string) (pkg : Package)
    (cgoName : string) :
  let rule :=
    fst (generateRule g bfPath (Rel pkg) "go_library" defaultLibName
           (if Package_IsCommand pkg then "//visibility:private"
            else checkInternalVisibility (Rel pkg) "//visibility:public")
           cgoName false (Library pkg)) in
  fst (generateLib g bfPath pkg cgoName)
  = if negb (Target_HasGo (Library pkg)) && String.eqb cgoName ""
    then ("", None) else (Rule_Name rule, Some rule).
Proof.
  cbv zeta. unfold generateLib.
  destruct (negb (Target_HasGo (Library pkg)) && String.eqb cgoName "");
    [reflexivity|].
  unfold bind, ret.
  match goal with
  | |- context [generateRule ?a ?p ?b ?k ?n ?v ?l ?t ?x] =>
      destruct (generateRule a p b k n v l t x)
  end.
  reflexivity.
Qed.

Lemma generateVendorRules_fst (g : generator) (bfPath : string)
    (pkg : Package) :
  let cgo := fst (generateCgoLib g bfPath pkg) in
  fst (generateVendorRules g bfPath pkg)
  = (option_list (snd cgo)
     ++ option_list (snd (fst (generateLib g bfPath pkg (fst cgo))))
     ++ option_list (filegroup g bfPath pkg))%list.
Proof.
  unfold generateVendorRules, bind, ret.
  destruct (generateCgoLib g bfPath pkg) as [[cgoLibrary o1] l1]. simpl.
  destruct (generateLib g bfPath pkg cgoLibrary) as [[library o2] l2]. simpl.
  destruct o1, o2, (filegroup g bfPath pkg); reflexivity.
Qed.

End Facts.
End AssemblyA.

(** X14: a vendored package gives at most a cgo_library, a go_library and a
    filegroup rule, in this order, and never a go_prefix, go_binary or
    go_test rule.  When the build file lies above the package, the
    cgo_library and the go_library rule are both called after the relative
    path of the package. *)
Theorem generateVendorRules_ids `{Env} (g : generator) (bfPath : string)
    (pkg : Package) :
  let bfRel :=
    GeneratorA.relPath bfPath (path_Join (RepoRoot (c g)) (Rel pkg)) in
  let bfDir := GeneratorA.relPath bfPath (Dir pkg) in
  let cgo := Target_HasGo (CgoLibrary pkg) in
  map ruleId (fst (GeneratorA.generateVendorRules g bfPath pkg))
  = (idIf cgo "cgo_library"
          (if String.eqb bfRel "" then defaultCgoLibName else bfRel)
     ++ idIf (Target_HasGo (Library pkg) || cgo) "go_library"
             (if String.eqb bfRel "" then defaultLibName else bfRel)
     ++ idIf (HasPbGo pkg && negb (Nat.eqb (List.length (Protos pkg)) 0))
             "filegroup"
             (if String.eqb bfDir "" then defaultProtosName
              else bfDir ++ "_" ++ defaultProtosName))%list.
Proof.
  cbv zeta. rewrite AssemblyA.generateVendorRules_fst. cbv zeta.
  rewrite !map_app. f_equal; [|f_equal].
  - rewrite AssemblyA.generateCgoLib_fst_bf. cbv zeta.
    destruct (Target_HasGo (CgoLibrary pkg)); [|reflexivity].
    cbn [snd idIf]. rewrite IdsB.map_ruleId_Some.
    now rewrite AssemblyA.Kind_generateRule_bf,
      AssemblyA.Rule_Name_generateRule_bf.
  - rewrite AssemblyA.generateCgoLib_fst_bf, AssemblyA.generateLib_fst_bf.
    cbv zeta.
    assert (forall name,
              name <> "" ->
              String.eqb
                (if String.eqb
                      (GeneratorA.relPath bfPath
                         (path_Join (RepoRoot (c g)) (Rel pkg))) ""
                 then name
                 else GeneratorA.relPath bfPath
                        (path_Join (RepoRoot (c g)) (Rel pkg))) ""
              = false) as Hnonempty.
    { intros name Hname.
      destruct (String.eqb_spec
                  (GeneratorA.relPath bfPath
                     (path_Join (RepoRoot (c g)) (Rel pkg))) "");
        now apply String.eqb_neq. }
    destruct (Target_HasGo (CgoLibrary pkg)), (Target_HasGo (Library pkg));
      cbn [fst snd negb andb orb idIf];
      rewrite ?AssemblyA.Rule_Name_generateRule_bf;
      rewrite ?(Hnonempty defaultCgoLibName) by discriminate;
      cbn [fst snd negb andb orb idIf];
      rewrite ?IdsB.map_ruleId_Some, ?AssemblyA.Kind_generateRule_bf,
        ?AssemblyA.Rule_Name_generateRule_bf; reflexivity.
  - unfold GeneratorA.filegroup. cbv zeta.
    destruct (HasPbGo pkg), (Nat.eqb (List.length (Protos pkg)) 0);
      cbn [negb andb orb idIf]; try reflexivity.
    destruct (String.eqb (GeneratorA.relPath bfPath (Dir pkg)) "");
      reflexivity.
Qed.
